(** * gossip_backend: the request handlers of [main.py]

    A shallow embedding of the four FastAPI handlers ([get_profile],
    [update_profile], [create_tweet], [get_tweets]) together with the two
    collaborators they talk to: the [profiles] table behind the Supabase
    client and the Twitter client.

    Handlers are computations in a state-and-exception monad over a
    [World]: the contents of the [profiles] table, the chronological list
    of calls made to the two external clients, and what was printed.  What
    the outside world answers (datastore outages, Twitter responses, the
    clock) is not fixed: it is an [Env] of oracles over the call history,
    and every general theorem below holds for all of them. *)

From Stdlib Require Import ZArith.
From stdpp Require Import gmap strings list fin_maps pretty.

Local Open Scope string_scope.
Local Open Scope Z_scope.
Local Open Scope list_scope.

(** ** Python values *)

(** The scalars that travel through the handlers: JSON values of a row,
    identifiers and texts of the Twitter client. *)
Inductive Value : Type :=
| VNone
| VBool (b : bool)
| VInt (n : Z)
| VStr (s : string).

#[global] Instance Value_eq_dec : EqDecision Value.
Proof. solve_decision. Defined.

(** [bool(v)]: what [not v] tests. *)
Definition truthy (v : Value) : bool :=
  match v with
  | VNone => false
  | VBool b => b
  | VInt n => negb (n =? 0)
  | VStr s => negb (String.eqb s EmptyString)
  end.

(** [str(v)], which is also what an f-string placeholder [{v}] renders. *)
Definition py_str (v : Value) : string :=
  match v with
  | VNone => "None"
  | VBool true => "True"
  | VBool false => "False"
  | VInt n => pretty n
  | VStr s => s
  end.

(** A dict with string keys. *)
Abbreviation Dict := (gmap string Value).

(** ** Exceptions and results *)

Inductive Exn : Type :=
| HTTPException (status_code : Z) (detail : string)
| PyError (cls : string) (msg : string).

(** [str(e)].  Starlette renders an [HTTPException] as
    [f"{status_code}: {detail}"]; the other exceptions carry their
    message. *)
Definition exn_str (e : Exn) : string :=
  match e with
  | HTTPException s d => pretty s +:+ ": " +:+ d
  | PyError _ m => m
  end.

Inductive Result (A : Type) : Type :=
| Ok (a : A)
| Raise (e : Exn).
Arguments Ok {A} a.
Arguments Raise {A} e.

(** The HTTP status the framework answers with: 200 for a returned body,
    the exception's own status for an [HTTPException], 500 for any other
    exception that escapes a handler. *)
Definition status_of {A : Type} (r : Result A) : Z :=
  match r with
  | Ok _ => 200
  | Raise (HTTPException s _) => s
  | Raise (PyError _ _) => 500
  end.

Definition quote : string := String (Ascii.ascii_of_nat 34) EmptyString.

Definition type_name (v : Value) : string :=
  match v with
  | VNone => "NoneType"
  | VBool _ => "bool"
  | VInt _ => "int"
  | VStr _ => "str"
  end.

(** [v >= k] for an int literal [k]; [bool] is a subclass of [int]. *)
Definition py_ge (v : Value) (k : Z) : Result bool :=
  match v with
  | VInt n => Ok (k <=? n)
  | VBool b => Ok (k <=? Z.b2z b)
  | _ => Raise (PyError "TypeError"
           ("'>=' not supported between instances of '" +:+ type_name v
              +:+ "' and 'int'"))
  end.

(** [v + k] for an int literal [k]. *)
Definition py_add (v : Value) (k : Z) : Result Value :=
  match v with
  | VInt n => Ok (VInt (n + k))
  | VBool b => Ok (VInt (Z.b2z b + k))
  | VNone => Raise (PyError "TypeError"
               "unsupported operand type(s) for +: 'NoneType' and 'int'")
  | VStr _ => Raise (PyError "TypeError"
               ("can only concatenate str (not " +:+ quote +:+ "int"
                  +:+ quote +:+ ") to str"))
  end.

(** [d[k]] on a dict. *)
Definition subscript (d : Dict) (k : string) : Result Value :=
  match d !! k with
  | Some v => Ok v
  | None => Raise (PyError "KeyError" ("'" +:+ k +:+ "'"))
  end.

(** [d[k]] where [d] may be [None]. *)
Definition subscript_opt (d : option Dict) (k : string) : Result Value :=
  match d with
  | Some d => subscript d k
  | None => Raise (PyError "TypeError" "'NoneType' object is not subscriptable")
  end.

(** ** Request models *)

Module ProfileUpdate.
Record t : Type := mk {
  username : option string;
  bio : option string;
  website : option string;
  location : option string }.

(** The declared fields, in declaration order. *)
Definition fields (p : t) : list (string * option string) :=
  [("username", username p); ("bio", bio p);
   ("website", website p); ("location", location p)].

(** The value of field [k], [None] when it is null or not declared. *)
Definition get (p : t) (k : string) : option string :=
  if String.eqb k "username" then username p
  else if String.eqb k "bio" then bio p
  else if String.eqb k "website" then website p
  else if String.eqb k "location" then location p
  else None.

(** [p.dict(exclude_none=True)]. *)
Definition dict_exclude_none (p : t) : Dict :=
  list_to_map (omap (λ kv, (λ s, (kv.1, VStr s)) <$> kv.2) (fields p)).
End ProfileUpdate.

Module TweetCreate.
Record t : Type := mk { content : string }.
End TweetCreate.

(** ** Objects of the Twitter client *)

(** [tweepy.Response]: only [data] is read. *)
Record Response (A : Type) : Type := mkResponse { data : option A }.
Arguments mkResponse {A} data.
Arguments data {A} r.

Module User.
Record t : Type := mk { id : Value }.
End User.

Module Tweet.
Record t : Type := mk {
  id : Value;
  text : Value;
  created_at : Value;
  public_metrics : option Dict }.
End Tweet.

(** ** The world outside the handlers *)

Inductive Call : Type :=
| DbSelectSingle (columns : string) (id : string)
| DbUpdate (payload : Dict) (id : string)
| TwCreateTweet (text : string)
| TwGetUser (username : Value)
| TwGetUsersTweets (id : Value) (max_results : Z).

Record World : Type := mkWorld {
  profiles : list Dict;
  calls : list Call;
  stdout : list string }.

(** The answers of the outside world, each a function of the calls made
    so far (the last one being the call that is answered). *)
Record Env : Type := mkEnv {
  (** the datastore client raises instead of answering *)
  db_fault : list Call → option Exn;
  (** [twitter_client.create_tweet] *)
  tw_create_tweet : list Call → Result (Response Dict);
  (** [twitter_client.get_user]; [None] stands for a falsy response *)
  tw_get_user : list Call → Result (option (Response User.t));
  (** [twitter_client.get_users_tweets] *)
  tw_get_users_tweets : list Call → Result (option (Response (list Tweet.t)));
  (** [datetime.utcnow().isoformat()] *)
  utcnow_isoformat : list Call → string }.

(** ** The handler monad: state and exceptions *)

Definition M (A : Type) : Type := World → Result A * World.

Definition ret {A : Type} (a : A) : M A := λ w, (Ok a, w).

Definition raise {A : Type} (e : Exn) : M A := λ w, (Raise e, w).

Definition bind {A B : Type} (m : M A) (k : A → M B) : M B :=
  λ w, match m w with
       | (Ok a, w') => k a w'
       | (Raise e, w') => (Raise e, w')
       end.

(** [try: body except Exception as e: handler]. *)
Definition try_except {A : Type} (body : M A) (handler : Exn → M A) : M A :=
  λ w, match body w with
       | (Ok a, w') => (Ok a, w')
       | (Raise e, w') => handler e w'
       end.

(** A pure step that may raise. *)
Definition lift {A : Type} (r : Result A) : M A := λ w, (r, w).

Notation "'let*' x ':=' m 'in' k" := (bind m (λ x, k))
  (at level 10, x pattern, m at level 100, k at level 200).
Notation "m ';;;' k" := (bind m (λ _, k))
  (at level 100, k at level 200, right associativity).

Definition print (line : string) : M unit :=
  λ w, (Ok tt, {| profiles := profiles w; calls := calls w;
                  stdout := stdout w ++ [line] |}).

(** Sequencing inside the exception monad alone, for the list
    comprehension. *)
Definition rbind {A B : Type} (r : Result A) (k : A → Result B) : Result B :=
  match r with
  | Ok a => k a
  | Raise e => Raise e
  end.

Fixpoint traverse {A B : Type} (f : A → Result B) (l : list A)
  : Result (list B) :=
  match l with
  | [] => Ok []
  | x :: l' => rbind (f x) (λ y, rbind (traverse f l') (λ ys, Ok (y :: ys)))
  end.

(** ** Response bodies *)

Module TweetCreated.
Record t : Type := mk {
  success : bool;
  new_count : Value;
  tweet_id : Value;
  tweet_url : string }.
End TweetCreated.

Module TweetItem.
Record t : Type := mk {
  id : Value;
  text : Value;
  created_at : Value;
  likes : Value;
  retweets : Value;
  url : string }.
End TweetItem.

(** The body of [get_tweets]; [error = None] is a body without the
    [error] key. *)
Module TweetList.
Record t : Type := mk {
  tweets : list TweetItem.t;
  error : option string }.
End TweetList.

(** One element of the comprehension in [get_tweets]. *)
Definition tweet_item (tweet : Tweet.t) : Result TweetItem.t :=
  rbind (subscript_opt (Tweet.public_metrics tweet) "like_count") (λ likes,
  rbind (subscript_opt (Tweet.public_metrics tweet) "retweet_count") (λ retweets,
  Ok {| TweetItem.id := Tweet.id tweet;
        TweetItem.text := Tweet.text tweet;
        TweetItem.created_at := Tweet.created_at tweet;
        TweetItem.likes := likes;
        TweetItem.retweets := retweets;
        TweetItem.url :=
          "https://twitter.com/i/web/status/" +:+ py_str (Tweet.id tweet) |})).

Section Handlers.

Variable env : Env.

(** *** The datastore client *)

Definition record_call (c : Call) (w : World) : World :=
  {| profiles := profiles w; calls := calls w ++ [c]; stdout := stdout w |}.

(** [.eq("id", user_id)]: the rows a query addresses. *)
Definition has_id (user_id : string) (row : Dict) : Prop :=
  row !! "id" = Some (VStr user_id).

#[global] Instance has_id_dec user_id row : Decision (has_id user_id row).
Proof. unfold has_id. apply _. Defined.

(** Modelled from the spec: the datastore returns row data as a mapping
    of field name to value.  [select(columns)] applied to one row, for
    ["*"] or a single column name. *)
Definition select_columns (columns : string) (row : Dict) : Dict :=
  if String.eqb columns "*" then row
  else match row !! columns with
       | Some v => {[ columns := v ]}
       | None => ∅
       end.

(** Modelled from the spec: the datastore client, an external
    collaborator, is a table-query interface supporting
    select-by-equality and single-row fetch, returning row data or
    raising on failure or ambiguity; the single-row fetch errors when
    zero or more than one row match.
    [supabase.table("profiles").select(columns).eq("id", user_id).single().execute()],
    the result being [response.data]. *)
Definition db_select_single (columns user_id : string) : M Dict :=
  λ w,
    let w' := record_call (DbSelectSingle columns user_id) w in
    match db_fault env (calls w') with
    | Some e => (Raise e, w')
    | None =>
        match filter (has_id user_id) (profiles w) with
        | [row] => (Ok (select_columns columns row), w')
        | _ => (Raise (PyError "APIError"
                  "JSON object requested, multiple (or no) rows returned"),
                w')
        end
    end.

(** Modelled from the spec: update-by-equality of the external
    datastore.  The table afterwards: the payload's columns overwrite
    those of every matching row, and nothing else changes. *)
Definition update_rows (payload : Dict) (user_id : string)
    (table : list Dict) : list Dict :=
  (λ row, if decide (has_id user_id row) then payload ∪ row else row)
    <$> table.

(** Modelled from the spec: update-by-equality of the external
    datastore client, returning row data or raising on failure.
    [supabase.table("profiles").update(payload).eq("id", user_id).execute()],
    the result being [response.data], the rows that were updated. *)
Definition db_update (payload : Dict) (user_id : string) : M (list Dict) :=
  λ w,
    let w' := record_call (DbUpdate payload user_id) w in
    match db_fault env (calls w') with
    | Some e => (Raise e, w')
    | None =>
        (Ok ((payload ∪.) <$> filter (has_id user_id) (profiles w)),
         {| profiles := update_rows payload user_id (profiles w);
            calls := calls w'; stdout := stdout w' |})
    end.

(** *** The Twitter client and the clock *)

Definition twitter_create_tweet (text : string) : M (Response Dict) :=
  λ w, let w' := record_call (TwCreateTweet text) w in
       (tw_create_tweet env (calls w'), w').

Definition twitter_get_user (username : Value)
  : M (option (Response User.t)) :=
  λ w, let w' := record_call (TwGetUser username) w in
       (tw_get_user env (calls w'), w').

Definition twitter_get_users_tweets (id : Value) (max_results : Z)
  : M (option (Response (list Tweet.t))) :=
  λ w, let w' := record_call (TwGetUsersTweets id max_results) w in
       (tw_get_users_tweets env (calls w'), w').

Definition utcnow : M string :=
  λ w, (Ok (utcnow_isoformat env (calls w)), w).

(** *** GET /api/profile/{user_id} *)

Definition get_profile (user_id : string) : M Dict :=
  try_except
    (let* response := db_select_single "*" user_id in
     if bool_decide (response = ∅)
     then raise (HTTPException 404 "Profile not found")
     else ret response)
    (λ e,
       print ("Error fetching profile: " +:+ exn_str e) ;;;
       raise (HTTPException 500 "Internal Server Error")).

(** *** PATCH /api/profile/{user_id} *)

Definition update_profile (user_id : string) (profile : ProfileUpdate.t)
  : M (list Dict) :=
  try_except
    (let* response :=
       db_update (ProfileUpdate.dict_exclude_none profile) user_id in
     ret response)
    (λ e, raise (HTTPException 400 (exn_str e))).

(** *** POST /api/tweet/{user_id} *)

Definition create_tweet (user_id : string) (tweet : TweetCreate.t)
  : M TweetCreated.t :=
  try_except
    (let* profile := db_select_single "twitter_post_count" user_id in
     let current_count :=
       default (VInt 0) (profile !! "twitter_post_count") in
     let* over := lift (py_ge current_count 500) in
     (if over
      then raise (HTTPException 429 "Monthly tweet limit reached")
      else ret tt) ;;;
     let* twitter_response :=
       twitter_create_tweet (TweetCreate.content tweet) in
     let* tweet_id := lift (subscript_opt (data twitter_response) "id") in
     let* written_count := lift (py_add current_count 1) in
     let* now := utcnow in
     let* response :=
       db_update {[ "twitter_post_count" := written_count;
                    "last_tweet_at" := VStr now;
                    "last_tweet_id" := tweet_id ]} user_id in
     let* new_count := lift (py_add current_count 1) in
     ret {| TweetCreated.success := true;
            TweetCreated.new_count := new_count;
            TweetCreated.tweet_id := tweet_id;
            TweetCreated.tweet_url :=
              "https://twitter.com/i/web/status/" +:+ py_str tweet_id |})
    (λ e, raise (HTTPException 400 (exn_str e))).

(** *** GET /api/tweets/{user_id} *)

Definition no_tweets : TweetList.t :=
  {| TweetList.tweets := []; TweetList.error := None |}.

Definition get_tweets (user_id : string) (limit : Z) : M TweetList.t :=
  try_except
    (let* profile_response :=
       db_select_single "twitter_username" user_id in
     if bool_decide (profile_response = ∅)
     then print ("No profile found for user " +:+ user_id) ;;;
          ret no_tweets
     else
       let username :=
         default VNone (profile_response !! "twitter_username") in
       if negb (truthy username)
       then print ("No Twitter username found for user " +:+ user_id) ;;;
            ret no_tweets
       else
         try_except
           (let* user := twitter_get_user username in
            match user ≫= data with
            | None =>
                print ("No Twitter user found for username "
                         +:+ py_str username) ;;;
                ret no_tweets
            | Some user_data =>
                let* tweets :=
                  twitter_get_users_tweets (User.id user_data) limit in
                match tweets ≫= data with
                | None | Some [] =>
                    print ("No tweets found for user "
                             +:+ py_str username) ;;;
                    ret no_tweets
                | Some tweets_data =>
                    let* items := lift (traverse tweet_item tweets_data) in
                    ret {| TweetList.tweets := items;
                           TweetList.error := None |}
                end
            end)
           (λ e,
              print ("Twitter API error: " +:+ exn_str e) ;;;
              ret {| TweetList.tweets := [];
                     TweetList.error := Some (exn_str e) |}))
    (λ e,
       print ("General error in get_tweets: " +:+ exn_str e) ;;;
       raise (HTTPException 500 (exn_str e))).

End Handlers.

(** The integer a value counts as in arithmetic and comparisons. *)
Definition int_value (v : Value) : option Z :=
  match v with
  | VInt n => Some n
  | VBool b => Some (Z.b2z b)
  | _ => None
  end.

(** ** Names for the calls and payloads of the handlers *)

(** The count fetch of [create_tweet]. *)
Definition post_count_select (user_id : string) : Call :=
  DbSelectSingle "twitter_post_count" user_id.

(** The username fetch of [get_tweets]. *)
Definition username_select (user_id : string) : Call :=
  DbSelectSingle "twitter_username" user_id.

(** The history once the post has been attempted. *)
Definition posted_calls (user_id : string) (tweet : TweetCreate.t)
    (w : World) : list Call :=
  calls w ++ [post_count_select user_id;
              TwCreateTweet (TweetCreate.content tweet)].

(** The [update] payload of a post with identifier [tweet_id] made at
    count [n]. *)
Definition count_payload (n : Z) (now : string) (tweet_id : Value) : Dict :=
  {[ "twitter_post_count" := VInt (n + 1);
     "last_tweet_at" := VStr now;
     "last_tweet_id" := tweet_id ]}.

(** ** Sample worlds, for the closed examples *)

Module Sample.
(** An outside world in which nothing fails. *)
Definition calm : Env :=
  {| db_fault := λ _, None;
     tw_create_tweet :=
       λ _, Ok (mkResponse (Some {[ "id" := VStr "1790" ]}));
     tw_get_user :=
       λ _, Ok (Some (mkResponse (Some (User.mk (VInt 42)))));
     tw_get_users_tweets := λ _, Ok (Some (mkResponse (Some [])));
     utcnow_isoformat := λ _, "2024-05-01T12:00:00" |}.

(** As [calm], but the account lookup raises. *)
Definition lookup_down : Env :=
  {| db_fault := λ _, None;
     tw_create_tweet := tw_create_tweet calm;
     tw_get_user := λ _, Raise (PyError "TooManyRequests" "429 Too Many Requests");
     tw_get_users_tweets := tw_get_users_tweets calm;
     utcnow_isoformat := utcnow_isoformat calm |}.

Definition alice (count : option Value) : Dict :=
  let base : Dict :=
    {[ "id" := VStr "u1"; "username" := VStr "alice";
       "bio" := VStr "hi"; "twitter_username" := VStr "alice_tw" ]} in
  match count with
  | Some c => <[ "twitter_post_count" := c ]> base
  | None => base
  end.

(** A profile linked to no Twitter account. *)
Definition carol : Dict :=
  {[ "id" := VStr "u2"; "username" := VStr "carol";
     "twitter_username" := VStr EmptyString;
     "twitter_post_count" := VInt 3 ]}.

Definition world (count : option Value) : World :=
  {| profiles := [alice count; carol]; calls := []; stdout := [] |}.

(** As [calm], with one post on the account's timeline. *)
Definition one_post : Env :=
  {| db_fault := db_fault calm;
     tw_create_tweet := tw_create_tweet calm;
     tw_get_user := tw_get_user calm;
     tw_get_users_tweets :=
       λ _, Ok (Some (mkResponse (Some
              [Tweet.mk (VInt 1790) (VStr "hello")
                 (VStr "2024-05-01T12:00:00")
                 (Some {[ "like_count" := VInt 2;
                          "retweet_count" := VInt 0 ]})])));
     utcnow_isoformat := utcnow_isoformat calm |}.

Definition hello : TweetCreate.t := TweetCreate.mk "hello".

Definition new_bio : ProfileUpdate.t :=
  ProfileUpdate.mk None (Some "gossip") None None.
End Sample.

(** ** Further scenarios: outages and odd records *)

Module Scenario.
Definition refused : Exn := PyError "APIError" "connection refused".

(** The datastore client raises on every call. *)
Definition db_down : Env :=
  {| db_fault := λ _, Some refused;
     tw_create_tweet := tw_create_tweet Sample.calm;
     tw_get_user := tw_get_user Sample.calm;
     tw_get_users_tweets := tw_get_users_tweets Sample.calm;
     utcnow_isoformat := utcnow_isoformat Sample.calm |}.

(** The datastore answers fetches and raises on updates. *)
Definition update_refused : Env :=
  {| db_fault := λ cs, match last cs with
                       | Some (DbUpdate _ _) => Some refused
                       | _ => None
                       end;
     tw_create_tweet := tw_create_tweet Sample.calm;
     tw_get_user := tw_get_user Sample.calm;
     tw_get_users_tweets := tw_get_users_tweets Sample.calm;
     utcnow_isoformat := utcnow_isoformat Sample.calm |}.

Definition forbidden : Exn := PyError "Forbidden" "403 Forbidden".

(** Posting raises. *)
Definition post_refused : Env :=
  {| db_fault := db_fault Sample.calm;
     tw_create_tweet := λ _, Raise forbidden;
     tw_get_user := tw_get_user Sample.calm;
     tw_get_users_tweets := tw_get_users_tweets Sample.calm;
     utcnow_isoformat := utcnow_isoformat Sample.calm |}.

(** The account lookup answers without data. *)
Definition unknown_account : Env :=
  {| db_fault := db_fault Sample.calm;
     tw_create_tweet := tw_create_tweet Sample.calm;
     tw_get_user := λ _, Ok (Some (mkResponse None));
     tw_get_users_tweets := tw_get_users_tweets Sample.calm;
     utcnow_isoformat := utcnow_isoformat Sample.calm |}.

Definition full_post : Tweet.t :=
  Tweet.mk (VInt 1790) (VStr "hello") (VStr "2024-05-01T12:00:00")
    (Some {[ "like_count" := VInt 2; "retweet_count" := VInt 0 ]}).

(** A post that came back without its metrics. *)
Definition bare_post : Tweet.t :=
  Tweet.mk (VInt 1791) (VStr "again") (VStr "2024-05-02T08:30:00") None.

(** The timeline holds a complete post followed by a bare one. *)
Definition mixed_timeline : Env :=
  {| db_fault := db_fault Sample.calm;
     tw_create_tweet := tw_create_tweet Sample.calm;
     tw_get_user := tw_get_user Sample.calm;
     tw_get_users_tweets :=
       λ _, Ok (Some (mkResponse (Some [full_post; bare_post])));
     utcnow_isoformat := utcnow_isoformat Sample.calm |}.

(** Two rows under one id. *)
Definition twins : World :=
  {| profiles := [Sample.alice None; Sample.alice (Some (VInt 1))];
     calls := []; stdout := [] |}.

End Scenario.


(** What [create_tweet] and [update_profile] turn an exception into. *)
Definition bad_request (e : Exn) : Exn := HTTPException 400 (exn_str e).

(** The columns [create_tweet] writes. *)
Definition post_columns : list string :=
  ["twitter_post_count"; "last_tweet_at"; "last_tweet_id"].

(** A post from which the comprehension of [get_tweets] cannot read both
    counts: no [public_metrics], or one of the two keys missing. *)
Definition lacks_metric (tweet : Tweet.t) : Prop :=
  ∀ m, Tweet.public_metrics tweet = Some m →
       m !! "like_count" = None ∨ m !! "retweet_count" = None.

(** The history of [get_tweets] once the account has been looked up. *)
Definition looked_up_calls (user_id : string) (username : Value)
    (w : World) : list Call :=
  calls w ++ [username_select user_id; TwGetUser username].

(** The body [get_tweets] answers a Twitter exception with. *)
Definition twitter_failed (e : Exn) : TweetList.t :=
  {| TweetList.tweets := []; TweetList.error := Some (exn_str e) |}.

(** The calls [get_tweets] makes to the Twitter client. *)
Definition is_timeline_read (c : Call) : bool :=
  match c with
  | TwGetUser _ | TwGetUsersTweets _ _ => true
  | _ => false
  end.

(** ** Reasoning principles for the monad *)

Section MonadFacts.

Context {A B : Type}.

Lemma bind_Ok (m : M A) (k : A → M B) w b w' :
  bind m k w = (Ok b, w') ↔
  ∃ a w1, m w = (Ok a, w1) ∧ k a w1 = (Ok b, w').
Proof.
  unfold bind. split.
  - destruct (m w) as [[a|e] w1]; [eauto | discriminate].
  - intros (a & w1 & -> & H). done.
Qed.

Lemma bind_Raise (m : M A) (k : A → M B) w e w' :
  m w = (Raise e, w') → bind m k w = (Raise e, w').
Proof. unfold bind. by intros ->. Qed.

Lemma bind_step (m : M A) (k : A → M B) w a w1 :
  m w = (Ok a, w1) → bind m k w = k a w1.
Proof. unfold bind. by intros ->. Qed.

Lemma lift_Ok (r : Result A) w a w' :
  lift r w = (Ok a, w') ↔ r = Ok a ∧ w' = w.
Proof. unfold lift. split; [by intros [= -> ->] | by intros [-> ->]]. Qed.

Lemma ret_Ok (x : A) w a w' :
  ret x w = (Ok a, w') ↔ a = x ∧ w' = w.
Proof. unfold ret. split; [by intros [= -> ->] | by intros [-> ->]]. Qed.

(** A handler that re-raises lets only the body's own results out. *)
Lemma try_except_reraise_Ok (body : M A) (f : Exn → Exn) w a w' :
  try_except body (λ e, raise (f e)) w = (Ok a, w') ↔
  body w = (Ok a, w').
Proof.
  unfold try_except, raise.
  destruct (body w) as [[x|e] w1]; split; intros H; try done.
Qed.

End MonadFacts.

Lemma py_ge_Ok v k b :
  py_ge v k = Ok b ↔ ∃ n, int_value v = Some n ∧ b = (k <=? n).
Proof.
  destruct v; simpl; split;
    try (intros [= <-]; eauto); try (intros (n' & [= <-] & ->); done);
    try discriminate; intros (? & [=] & _).
Qed.

Lemma py_add_Ok v k x :
  py_add v k = Ok x ↔ ∃ n, int_value v = Some n ∧ x = VInt (n + k).
Proof.
  destruct v; simpl; split;
    try (intros [= <-]; eauto); try (intros (n' & [= <-] & ->); done);
    try discriminate; intros (? & [=] & _).
Qed.

(** ** Basic facts about the datastore model *)

Section DatastoreFacts.

Variable env : Env.

Lemma select_columns_lookup (columns : string) (row : Dict) :
  select_columns columns row !! columns = row !! columns.
Proof.
  unfold select_columns.
  destruct (String.eqb columns "*"); [done|].
  destruct (row !! columns) eqn:E.
  - by rewrite lookup_singleton_eq.
  - by rewrite lookup_empty.
Qed.

Lemma db_select_single_fault columns user_id w e :
  db_fault env (calls w ++ [DbSelectSingle columns user_id]) = Some e →
  db_select_single env columns user_id w
  = (Raise e, record_call (DbSelectSingle columns user_id) w).
Proof. intros H. unfold db_select_single. simpl. by rewrite H. Qed.

Lemma db_select_single_ok columns user_id w row :
  db_fault env (calls w ++ [DbSelectSingle columns user_id]) = None →
  filter (has_id user_id) (profiles w) = [row] →
  db_select_single env columns user_id w
  = (Ok (select_columns columns row),
     record_call (DbSelectSingle columns user_id) w).
Proof. intros H1 H2. unfold db_select_single. simpl. by rewrite H1, H2. Qed.

Lemma db_select_single_none columns user_id w :
  db_fault env (calls w ++ [DbSelectSingle columns user_id]) = None →
  filter (has_id user_id) (profiles w) = [] →
  db_select_single env columns user_id w
  = (Raise (PyError "APIError"
              "JSON object requested, multiple (or no) rows returned"),
     record_call (DbSelectSingle columns user_id) w).
Proof. intros H1 H2. unfold db_select_single. simpl. by rewrite H1, H2. Qed.

(** A single-row fetch only ever appends its own call and leaves the
    table alone; when it returns, exactly one row matched. *)
Lemma db_select_single_inv columns user_id w r w' :
  db_select_single env columns user_id w = (r, w') →
  w' = record_call (DbSelectSingle columns user_id) w ∧
  ∀ d, r = Ok d →
       ∃ row, filter (has_id user_id) (profiles w) = [row] ∧
              d = select_columns columns row.
Proof.
  unfold db_select_single. simpl.
  destruct (db_fault env _).
  - intros [= <- <-]. split; [done|]. intros d [=].
  - destruct (filter _ _) as [|row [|]] eqn:E; intros [= <- <-];
      (split; [done|]); intros d [=]. subst. eauto.
Qed.

Lemma update_rows_length payload user_id table :
  length (update_rows payload user_id table) = length table.
Proof. unfold update_rows. by rewrite length_fmap. Qed.

Lemma update_rows_lookup payload user_id table (i : nat) :
  update_rows payload user_id table !! i
  = (λ row, if decide (has_id user_id row) then payload ∪ row else row)
      <$> table !! i.
Proof. unfold update_rows. by rewrite list_lookup_fmap. Qed.

(** An update that does not touch the key column keeps the rows it
    addresses addressed. *)
Lemma has_id_union payload user_id (row : Dict) :
  payload !! "id" = None →
  has_id user_id (payload ∪ row) ↔ has_id user_id row.
Proof.
  intros H. unfold has_id.
  rewrite lookup_union_r by done. done.
Qed.

Lemma filter_update_rows payload user_id table :
  payload !! "id" = None →
  filter (has_id user_id) (update_rows payload user_id table)
  = (payload ∪.) <$> filter (has_id user_id) table.
Proof.
  intros H. unfold update_rows.
  induction table as [|row table IH]; [done|].
  rewrite fmap_cons, !filter_cons.
  destruct (decide (has_id user_id row)) as [Hrow|Hrow].
  - rewrite decide_True by (by apply has_id_union).
    rewrite fmap_cons. by f_equal.
  - by rewrite decide_False by done.
Qed.

Lemma update_rows_idemp payload user_id table :
  payload !! "id" = None →
  update_rows payload user_id (update_rows payload user_id table)
  = update_rows payload user_id table.
Proof.
  intros H. unfold update_rows. rewrite <- list_fmap_compose.
  apply list_fmap_ext. intros _ row _. simpl.
  destruct (decide (has_id user_id row)) as [Hrow|Hrow].
  - rewrite decide_True by (by apply has_id_union).
    by rewrite (assoc (∪)), (idemp (∪)).
  - by rewrite decide_False by done.
Qed.

End DatastoreFacts.

(** ** get_profile *)

Section GetProfile.

Variable env : Env.

(** Whatever is raised inside the [try] block, the [HTTPException] with
    status 404 included, is caught by [except Exception] and replaced by
    status 500: the handler answers 200 or 500, nothing else. *)
Lemma get_profile_outcomes user_id w :
  (∃ row, (get_profile env user_id w).1 = Ok row) ∨
  (get_profile env user_id w).1
  = Raise (HTTPException 500 "Internal Server Error").
Proof.
  unfold get_profile, try_except, bind.
  destruct (db_select_single env "*" user_id w) as [[d|e] w1]; simpl.
  - case_bool_decide; simpl; eauto.
  - by right.
Qed.

Lemma get_profile_never_404 user_id w :
  status_of (get_profile env user_id w).1 ≠ 404.
Proof.
  destruct (get_profile_outcomes user_id w) as [[row ->] | ->]; simpl; lia.
Qed.

(** An id that matches no row makes the handler answer 500. *)
Lemma get_profile_no_row user_id w :
  filter (has_id user_id) (profiles w) = [] →
  (get_profile env user_id w).1
  = Raise (HTTPException 500 "Internal Server Error").
Proof.
  intros Hnone.
  destruct (get_profile_outcomes user_id w) as [[row Hrow] | H]; [|done].
  exfalso. revert Hrow.
  unfold get_profile, try_except, bind.
  destruct (db_select_single env "*" user_id w) as [[d|e] w1] eqn:E; simpl.
  - apply db_select_single_inv in E as [_ E].
    destruct (E d eq_refl) as (r & Hr & _). congruence.
  - discriminate.
Qed.

(** An existing profile is returned as stored. *)
Lemma get_profile_found user_id w row :
  db_fault env (calls w ++ [DbSelectSingle "*" user_id]) = None →
  filter (has_id user_id) (profiles w) = [row] →
  (get_profile env user_id w).1 = Ok row.
Proof.
  intros Hf Hrow.
  unfold get_profile, try_except, bind.
  rewrite (db_select_single_ok env _ _ _ row) by done.
  change (select_columns "*" row) with row. simpl.
  assert (Hin : row ∈ filter (has_id user_id) (profiles w))
    by (rewrite Hrow; apply list_elem_of_singleton; done).
  apply list_elem_of_filter in Hin as [Hid _].
  rewrite bool_decide_false; [done|].
  intros ->. unfold has_id in Hid. by rewrite lookup_empty in Hid.
Qed.

End GetProfile.

(** C2 (violated by the code).  The claim is that an id matching zero
    rows makes [get_profile] fail with status 404.  Evaluated on a table
    without the id, under an outside world in which nothing else fails,
    the handler answers status 500 with detail "Internal Server Error":
    the single-row fetch raises, and [except Exception] turns every
    exception of the [try] block into a 500. *)
Theorem get_profile_unknown_id_is_500 :
  (get_profile Sample.calm "nobody" (Sample.world None)).1
  = Raise (HTTPException 500 "Internal Server Error") ∧
  status_of (get_profile Sample.calm "nobody" (Sample.world None)).1 = 500.
Proof. by vm_compute. Qed.

(** ** create_tweet *)

Section CreateTweet.

Variable env : Env.

(** Every exception of the [try] block leaves the handler as an
    [HTTPException] with status 400. *)
Lemma create_tweet_outcomes user_id tweet w :
  (∃ r, (create_tweet env user_id tweet w).1 = Ok r) ∨
  (∃ detail, (create_tweet env user_id tweet w).1
             = Raise (HTTPException 400 detail)).
Proof.
  unfold create_tweet, try_except.
  match goal with
  | |- context [match ?body w with _ => _ end] =>
      destruct (body w) as [[r|e] w1]
  end; simpl; eauto.
Qed.

Lemma create_tweet_never_429 user_id tweet w :
  status_of (create_tweet env user_id tweet w).1 ≠ 429.
Proof.
  destruct (create_tweet_outcomes user_id tweet w) as [[r ->] | [d ->]];
    simpl; lia.
Qed.

(** At or above the ceiling the handler stops after the count fetch,
    and the 429 it raises comes out as a 400. *)
Lemma create_tweet_over_limit user_id tweet w row n :
  db_fault env (calls w ++ [post_count_select user_id]) = None →
  filter (has_id user_id) (profiles w) = [row] →
  row !! "twitter_post_count" = Some (VInt n) →
  500 ≤ n →
  create_tweet env user_id tweet w
  = (Raise (HTTPException 400
              (exn_str (HTTPException 429 "Monthly tweet limit reached"))),
     record_call (post_count_select user_id) w).
Proof.
  intros Hf Hrow Hcount Hn.
  unfold create_tweet, try_except, bind.
  rewrite (db_select_single_ok env _ _ _ row) by done.
  rewrite select_columns_lookup, Hcount. simpl.
  unfold lift. simpl.
  replace (500 <=? n) with true by (symmetry; by apply Z.leb_le).
  done.
Qed.

End CreateTweet.

(** C1 (violated by the code).  The claim is that a [create_tweet]
    request on a profile whose post count is at least 500 fails with
    status 429.  Evaluated on a profile with count 500, the handler
    answers status 400: the [HTTPException] with status 429 is raised
    inside the [try] block and [except Exception] re-raises it as a
    400. *)
Theorem create_tweet_at_ceiling_is_400 :
  status_of
    (create_tweet Sample.calm "u1" Sample.hello
       (Sample.world (Some (VInt 500)))).1 = 400.
Proof. by vm_compute. Qed.

(** C3.  On a profile whose fetched post count is at least 500,
    [create_tweet] makes no call to the Twitter client: the only call it
    adds to the history is the count fetch, so every post-creation call
    found in the history afterwards was already there before. *)
Theorem create_tweet_over_limit_never_posts
    (env : Env) (user_id : string) (tweet : TweetCreate.t) (w : World)
    (row : Dict) (n : Z) :
  filter (has_id user_id) (profiles w) = [row] →
  row !! "twitter_post_count" = Some (VInt n) →
  500 ≤ n →
  let w' := (create_tweet env user_id tweet w).2 in
  calls w' = calls w ++ [post_count_select user_id] ∧
  (∀ text, TwCreateTweet text ∈ calls w' → TwCreateTweet text ∈ calls w) ∧
  profiles w' = profiles w.
Proof.
  intros Hrow Hcount Hn w'.
  assert (Hw : w' = record_call (post_count_select user_id) w).
  { subst w'.
    destruct (db_fault env (calls w ++ [post_count_select user_id]))
      as [e|] eqn:Hf.
    - unfold create_tweet, try_except, bind.
      by rewrite (db_select_single_fault env _ _ _ e).
    - by rewrite (create_tweet_over_limit env _ _ _ row n). }
  rewrite Hw. simpl. split; [done|]. split; [|done].
  intros text Hin. apply elem_of_app in Hin as [Hin|Hin]; [done|].
  apply list_elem_of_singleton in Hin. discriminate.
Qed.

Lemma create_tweet_over_limit_never_posts_witness :
  let w := Sample.world (Some (VInt 731)) in
  let w' := (create_tweet Sample.calm "u1" Sample.hello w).2 in
  calls w' = calls w ++ [post_count_select "u1"] ∧
  (∀ text, TwCreateTweet text ∈ calls w' → TwCreateTweet text ∈ calls w) ∧
  profiles w' = profiles w.
Proof.
  apply (create_tweet_over_limit_never_posts Sample.calm "u1" Sample.hello
           (Sample.world (Some (VInt 731)))
           (Sample.alice (Some (VInt 731))) 731).
  - vm_compute. reflexivity.
  - vm_compute. reflexivity.
  - lia.
Defined.

(** ** create_tweet: the successful path *)

Section CreateTweetSuccess.

Variable env : Env.

Lemma count_payload_id n now tweet_id :
  count_payload n now tweet_id !! "id" = None.
Proof. done. Qed.

Lemma count_payload_count n now tweet_id :
  count_payload n now tweet_id !! "twitter_post_count" = Some (VInt (n + 1)).
Proof. done. Qed.

(** What a call that returned must have gone through. *)
Lemma create_tweet_Ok_inv user_id tweet w r w' :
  create_tweet env user_id tweet w = (Ok r, w') →
  ∃ row n resp d tweet_id,
    filter (has_id user_id) (profiles w) = [row] ∧
    int_value (default (VInt 0) (row !! "twitter_post_count")) = Some n ∧
    n < 500 ∧
    tw_create_tweet env (posted_calls user_id tweet w) = Ok resp ∧
    data resp = Some d ∧
    d !! "id" = Some tweet_id ∧
    let payload :=
      count_payload n (utcnow_isoformat env (posted_calls user_id tweet w))
        tweet_id in
    r = {| TweetCreated.success := true;
           TweetCreated.new_count := VInt (n + 1);
           TweetCreated.tweet_id := tweet_id;
           TweetCreated.tweet_url :=
             "https://twitter.com/i/web/status/" +:+ py_str tweet_id |} ∧
    w' = {| profiles := update_rows payload user_id (profiles w);
            calls := posted_calls user_id tweet w
                       ++ [DbUpdate payload user_id];
            stdout := stdout w |}.
Proof.
  intros H. unfold create_tweet in H.
  apply try_except_reraise_Ok in H.
  apply bind_Ok in H as (profile & w1 & Hsel & H).
  apply db_select_single_inv in Hsel as [-> Hsel].
  destruct (Hsel _ eq_refl) as (row & Hrow & ->). clear Hsel.
  rewrite select_columns_lookup in H.
  apply bind_Ok in H as (over & w2 & Hge & H).
  apply lift_Ok in Hge as [Hge ->].
  apply py_ge_Ok in Hge as (n & Hn & ->).
  apply bind_Ok in H as ([] & w3 & Hif & H).
  destruct (500 <=? n) eqn:Hlim; [discriminate Hif|].
  apply ret_Ok in Hif as [_ ->].
  apply bind_Ok in H as (resp & w4 & Htw & H).
  unfold twitter_create_tweet in Htw. simpl in Htw.
  injection Htw as Htw <-.
  apply bind_Ok in H as (tweet_id & w5 & Hid & H).
  apply lift_Ok in Hid as [Hid ->].
  apply bind_Ok in H as (written & w6 & Hadd & H).
  apply lift_Ok in Hadd as [Hadd ->].
  apply py_add_Ok in Hadd as (n' & Hn' & ->).
  assert (n' = n) as -> by congruence. clear Hn'.
  apply bind_Ok in H as (now & w7 & Hnow & H).
  unfold utcnow in Hnow. simpl in Hnow. injection Hnow as <- <-.
  apply bind_Ok in H as (response & w8 & Hupd & H).
  apply bind_Ok in H as (new_count & w9 & Hadd & H).
  apply lift_Ok in Hadd as [Hadd ->].
  apply py_add_Ok in Hadd as (n' & Hn' & ->).
  assert (n' = n) as -> by congruence.
  apply ret_Ok in H as [-> ->].
  unfold db_update in Hupd. simpl in Hupd.
  destruct (db_fault env _); [discriminate Hupd|].
  injection Hupd as <- <-.
  unfold subscript_opt in Hid.
  destruct (data resp) as [d|] eqn:Hd; [|discriminate Hid].
  unfold subscript in Hid.
  destruct (d !! "id") as [v|] eqn:Hv; [|discriminate Hid].
  injection Hid as ->.
  exists row, n, resp, d, tweet_id.
  unfold posted_calls, post_count_select, count_payload.
  rewrite <- !(assoc_L (++)). simpl.
  rewrite <- !(assoc_L (++)) in Htw. simpl in Htw.
  split_and!; try done. by apply Z.leb_gt.
Qed.

(** Conversely, a call returns whenever the count is fetched and below
    the ceiling, the post yields an identifier and the update goes
    through. *)
Lemma create_tweet_Ok user_id tweet w row n resp d tweet_id :
  db_fault env (calls w ++ [post_count_select user_id]) = None →
  filter (has_id user_id) (profiles w) = [row] →
  int_value (default (VInt 0) (row !! "twitter_post_count")) = Some n →
  n < 500 →
  tw_create_tweet env (posted_calls user_id tweet w) = Ok resp →
  data resp = Some d →
  d !! "id" = Some tweet_id →
  let payload :=
    count_payload n (utcnow_isoformat env (posted_calls user_id tweet w))
      tweet_id in
  db_fault env (posted_calls user_id tweet w ++ [DbUpdate payload user_id])
  = None →
  create_tweet env user_id tweet w
  = (Ok {| TweetCreated.success := true;
           TweetCreated.new_count := VInt (n + 1);
           TweetCreated.tweet_id := tweet_id;
           TweetCreated.tweet_url :=
             "https://twitter.com/i/web/status/" +:+ py_str tweet_id |},
     {| profiles := update_rows payload user_id (profiles w);
        calls := posted_calls user_id tweet w ++ [DbUpdate payload user_id];
        stdout := stdout w |}).
Proof.
  intros Hf1 Hrow Hn Hlim Htw Hd Hid payload Hf2.
  assert (Hge : py_ge (default (VInt 0) (row !! "twitter_post_count")) 500
                = Ok false).
  { apply py_ge_Ok. exists n. split; [done|]. symmetry. by apply Z.leb_gt. }
  assert (Hadd : py_add (default (VInt 0) (row !! "twitter_post_count")) 1
                 = Ok (VInt (n + 1))).
  { apply py_add_Ok. eauto. }
  unfold create_tweet, try_except.
  rewrite (bind_step _ _ _ _ _ (db_select_single_ok env _ _ _ row Hf1 Hrow)).
  rewrite select_columns_lookup.
  unfold bind, lift, ret, raise, twitter_create_tweet, utcnow, db_update.
  rewrite Hge, Hadd. simpl.
  unfold posted_calls, post_count_select in *.
  rewrite <- !(assoc_L (++)) in *. simpl in *.
  rewrite Htw. unfold subscript_opt, subscript. rewrite Hd, Hid.
  fold (count_payload n
          (utcnow_isoformat env
             (calls w ++ [DbSelectSingle "twitter_post_count" user_id;
                          TwCreateTweet (TweetCreate.content tweet)]))
          tweet_id).
  subst payload. rewrite <- !(assoc_L (++)). simpl. by rewrite Hf2.
Qed.

End CreateTweetSuccess.

(** C4.  When [create_tweet] returns, the count fetched for the profile
    was some integer [n], the returned [new_count] is [n + 1], and the
    one row of the profile stored afterwards carries [n + 1] as its post
    count. *)
Theorem create_tweet_increments_by_one
    (env : Env) (user_id : string) (tweet : TweetCreate.t) (w w' : World)
    (r : TweetCreated.t) :
  create_tweet env user_id tweet w = (Ok r, w') →
  ∃ (row row' : Dict) (n : Z),
    filter (has_id user_id) (profiles w) = [row] ∧
    int_value (default (VInt 0) (row !! "twitter_post_count")) = Some n ∧
    TweetCreated.new_count r = VInt (n + 1) ∧
    filter (has_id user_id) (profiles w') = [row'] ∧
    row' !! "twitter_post_count" = Some (VInt (n + 1)).
Proof.
  intros H.
  apply create_tweet_Ok_inv in H
    as (row & n & resp & d & tid & Hrow & Hn & _ & _ & _ & _ & -> & ->).
  simpl.
  set (payload := count_payload n _ tid).
  exists row, (payload ∪ row), n. split_and!; try done.
  - rewrite filter_update_rows by apply count_payload_id. by rewrite Hrow.
  - apply lookup_union_Some_l, count_payload_count.
Qed.

Lemma create_tweet_increments_by_one_witness :
  ∃ (row row' : Dict) (n : Z),
    filter (has_id "u1") (profiles (Sample.world (Some (VInt 499)))) = [row] ∧
    int_value (default (VInt 0) (row !! "twitter_post_count")) = Some n ∧
    TweetCreated.new_count
      {| TweetCreated.success := true;
         TweetCreated.new_count := VInt 500;
         TweetCreated.tweet_id := VStr "1790";
         TweetCreated.tweet_url := "https://twitter.com/i/web/status/1790" |}
    = VInt (n + 1) ∧
    filter (has_id "u1")
      (profiles
         (create_tweet Sample.calm "u1" Sample.hello
            (Sample.world (Some (VInt 499)))).2) = [row'] ∧
    row' !! "twitter_post_count" = Some (VInt (n + 1)).
Proof.
  apply (create_tweet_increments_by_one Sample.calm "u1" Sample.hello
           (Sample.world (Some (VInt 499)))).
  vm_compute. reflexivity.
Defined.

(** C5.  When [create_tweet] returns, [tweet_url] is the fixed prefix
    https://twitter.com/i/web/status/ followed by the rendering of the
    returned [tweet_id], which is the identifier the post-creation call
    answered with. *)
Theorem create_tweet_url_template
    (env : Env) (user_id : string) (tweet : TweetCreate.t) (w w' : World)
    (r : TweetCreated.t) :
  create_tweet env user_id tweet w = (Ok r, w') →
  TweetCreated.tweet_url r
  = "https://twitter.com/i/web/status/" +:+ py_str (TweetCreated.tweet_id r) ∧
  ∃ resp, tw_create_tweet env (posted_calls user_id tweet w) = Ok resp ∧
          subscript_opt (data resp) "id" = Ok (TweetCreated.tweet_id r).
Proof.
  intros H.
  apply create_tweet_Ok_inv in H
    as (row & n & resp & d & tid & _ & _ & _ & Htw & Hd & Hid & -> & _).
  simpl. split; [done|]. exists resp. split; [done|].
  unfold subscript_opt, subscript. by rewrite Hd, Hid.
Qed.

Lemma create_tweet_url_template_witness :
  TweetCreated.tweet_url
    {| TweetCreated.success := true;
       TweetCreated.new_count := VInt 8;
       TweetCreated.tweet_id := VStr "1790";
       TweetCreated.tweet_url := "https://twitter.com/i/web/status/1790" |}
  = "https://twitter.com/i/web/status/1790" ∧
  ∃ resp,
    tw_create_tweet Sample.calm
      (posted_calls "u1" Sample.hello (Sample.world (Some (VInt 7))))
    = Ok resp ∧
    subscript_opt (data resp) "id" = Ok (VStr "1790").
Proof.
  apply (create_tweet_url_template Sample.calm "u1" Sample.hello
           (Sample.world (Some (VInt 7)))
           (create_tweet Sample.calm "u1" Sample.hello
              (Sample.world (Some (VInt 7)))).2).
  vm_compute. reflexivity.
Defined.

(** C10.  On an existing profile whose fetched record has no
    [twitter_post_count] entry the count defaults to 0: the handler goes
    on to call the post-creation API with the request's content, every
    result it returns carries [new_count = 1], and it does return one
    whenever the post yields an identifier and the update is not
    refused. *)
Theorem create_tweet_missing_count_counts_as_zero
    (env : Env) (user_id : string) (tweet : TweetCreate.t) (w : World)
    (row : Dict) :
  db_fault env (calls w ++ [post_count_select user_id]) = None →
  filter (has_id user_id) (profiles w) = [row] →
  row !! "twitter_post_count" = None →
  (∃ rest, calls (create_tweet env user_id tweet w).2
           = posted_calls user_id tweet w ++ rest) ∧
  (∀ r, (create_tweet env user_id tweet w).1 = Ok r →
        TweetCreated.new_count r = VInt 1) ∧
  (∀ resp d tweet_id,
      tw_create_tweet env (posted_calls user_id tweet w) = Ok resp →
      data resp = Some d →
      d !! "id" = Some tweet_id →
      db_fault env
        (posted_calls user_id tweet w
           ++ [DbUpdate
                 (count_payload 0
                    (utcnow_isoformat env (posted_calls user_id tweet w))
                    tweet_id)
                 user_id]) = None →
      ∃ r, (create_tweet env user_id tweet w).1 = Ok r ∧
           TweetCreated.new_count r = VInt 1).
Proof.
  intros Hf Hrow Hcount. split_and!.
  - unfold create_tweet, try_except.
    rewrite (bind_step _ _ _ _ _ (db_select_single_ok env _ _ _ row Hf Hrow)).
    rewrite select_columns_lookup, Hcount.
    unfold bind, lift, ret, raise, twitter_create_tweet, utcnow, db_update,
      posted_calls, post_count_select.
    simpl.
    destruct (tw_create_tweet env _) as [resp|e]; simpl;
      [|exists []; by rewrite <- !(assoc_L (++))].
    destruct (subscript_opt (data resp) "id") as [tid|e]; simpl;
      [|exists []; by rewrite <- !(assoc_L (++))].
    match goal with
    | |- context [match db_fault env ?cs with _ => _ end] =>
        destruct (db_fault env cs)
    end; simpl; eexists [_]; by rewrite <- !(assoc_L (++)).
  - intros r Hr.
    destruct (create_tweet env user_id tweet w) as [r0 w'] eqn:E.
    simpl in Hr. subst r0.
    apply create_tweet_Ok_inv in E
      as (row' & n & resp & d & tid & Hrow' & Hn & _ & _ & _ & _ & -> & _).
    assert (row' = row) as -> by congruence.
    rewrite Hcount in Hn. simpl in Hn. by injection Hn as <-.
  - intros resp d tid Htw Hd Hid Hf2.
    eexists. split.
    + erewrite (create_tweet_Ok env user_id tweet w row 0); try done.
      by rewrite Hcount.
    + done.
Qed.

Lemma create_tweet_missing_count_counts_as_zero_witness :
  let w := Sample.world None in
  (∃ rest, calls (create_tweet Sample.calm "u1" Sample.hello w).2
           = posted_calls "u1" Sample.hello w ++ rest) ∧
  (create_tweet Sample.calm "u1" Sample.hello w).1
  = Ok {| TweetCreated.success := true;
          TweetCreated.new_count := VInt 1;
          TweetCreated.tweet_id := VStr "1790";
          TweetCreated.tweet_url := "https://twitter.com/i/web/status/1790" |}.
Proof.
  intros w.
  destruct (create_tweet_missing_count_counts_as_zero Sample.calm "u1"
              Sample.hello w (Sample.alice None))
    as (Hposted & _ & _).
  - vm_compute. reflexivity.
  - vm_compute. reflexivity.
  - vm_compute. reflexivity.
  - split; [exact Hposted|]. vm_compute. reflexivity.
Defined.

(** ** update_profile *)

Section UpdateProfile.

Variable env : Env.

(** The dict sent to the datastore holds the non-null fields and
    nothing else. *)
Lemma dict_exclude_none_lookup (p : ProfileUpdate.t) (k : string) :
  ProfileUpdate.dict_exclude_none p !! k = VStr <$> ProfileUpdate.get p k.
Proof.
  unfold ProfileUpdate.get.
  destruct (String.eqb_spec k "username") as [->|?];
    [by destruct p as [[?|] [?|] [?|] [?|]]|].
  destruct (String.eqb_spec k "bio") as [->|?];
    [by destruct p as [[?|] [?|] [?|] [?|]]|].
  destruct (String.eqb_spec k "website") as [->|?];
    [by destruct p as [[?|] [?|] [?|] [?|]]|].
  destruct (String.eqb_spec k "location") as [->|?];
    [by destruct p as [[?|] [?|] [?|] [?|]]|].
  destruct p as [[?|] [?|] [?|] [?|]];
    unfold ProfileUpdate.dict_exclude_none; simpl;
    by rewrite ?lookup_insert_ne, lookup_empty by done.
Qed.

Lemma dict_exclude_none_id (p : ProfileUpdate.t) :
  ProfileUpdate.dict_exclude_none p !! "id" = None.
Proof. by rewrite dict_exclude_none_lookup. Qed.

(** The two ways a call can go. *)
Lemma update_profile_run user_id p w :
  let payload := ProfileUpdate.dict_exclude_none p in
  update_profile env user_id p w
  = match db_fault env (calls w ++ [DbUpdate payload user_id]) with
    | Some e => (Raise (HTTPException 400 (exn_str e)),
                 record_call (DbUpdate payload user_id) w)
    | None => (Ok ((payload ∪.) <$> filter (has_id user_id) (profiles w)),
               {| profiles := update_rows payload user_id (profiles w);
                  calls := calls w ++ [DbUpdate payload user_id];
                  stdout := stdout w |})
    end.
Proof.
  unfold update_profile, try_except, bind, ret, raise, db_update. simpl.
  by destruct (db_fault env _).
Qed.

Lemma update_profile_outcomes user_id p w :
  status_of (update_profile env user_id p w).1 = 200 ∨
  status_of (update_profile env user_id p w).1 = 400.
Proof.
  rewrite update_profile_run. simpl.
  destruct (db_fault env _); simpl; auto.
Qed.

End UpdateProfile.

(** C6.  [update_profile] sends the datastore exactly the non-null
    fields of the partial update.  Afterwards the table has the same rows
    in the same places; a row with another id is untouched; in every row
    each column that is not a non-null field of the update keeps its
    value; when the call returned, each non-null field holds the update's
    value in the rows with the id; and a second call with the same
    partial update then leaves the table as the first one left it. *)
Theorem update_profile_frame_and_idempotent
    (env : Env) (user_id : string) (p : ProfileUpdate.t) (w : World) :
  let w1 := (update_profile env user_id p w).2 in
  let w2 := (update_profile env user_id p w1).2 in
  (∀ k, ProfileUpdate.dict_exclude_none p !! k
        = VStr <$> ProfileUpdate.get p k) ∧
  length (profiles w1) = length (profiles w) ∧
  (∀ (i : nat) (row : Dict),
      profiles w !! i = Some row →
      ∃ row' : Dict,
        profiles w1 !! i = Some row' ∧
        (¬ has_id user_id row → row' = row) ∧
        (∀ k, ProfileUpdate.get p k = None → row' !! k = row !! k) ∧
        (∀ rows k s,
            (update_profile env user_id p w).1 = Ok rows →
            has_id user_id row →
            ProfileUpdate.get p k = Some s →
            row' !! k = Some (VStr s))) ∧
  (∀ rows, (update_profile env user_id p w).1 = Ok rows →
           profiles w2 = profiles w1).
Proof.
  intros w1 w2. subst w2 w1.
  split; [apply dict_exclude_none_lookup|].
  rewrite (update_profile_run env user_id p w).
  destruct (db_fault env (calls w ++ _)) as [e|] eqn:Hf; simpl.
  - (* the datastore refused: nothing was written *)
    split; [done|]. split.
    + intros i row Hrow. exists row. split_and!; try done.
    + intros rows [=].
  - split; [apply update_rows_length|]. split.
    + intros i row Hrow.
      rewrite update_rows_lookup, Hrow. simpl.
      eexists. split; [done|].
      destruct (decide (has_id user_id row)) as [Hid|Hid]; split_and!.
      * done.
      * intros k Hk. apply lookup_union_r.
        by rewrite dict_exclude_none_lookup, Hk.
      * intros _ k s _ _ Hk. apply lookup_union_Some_l.
        by rewrite dict_exclude_none_lookup, Hk.
      * done.
      * done.
      * intros _ k s _ Hid'. done.
    + intros rows _.
      rewrite update_profile_run. simpl.
      match goal with
      | |- context [match db_fault env ?cs with _ => _ end] =>
          destruct (db_fault env cs)
      end; simpl; [done|].
      apply update_rows_idemp, dict_exclude_none_id.
Qed.

Lemma update_profile_frame_and_idempotent_witness :
  let w := Sample.world (Some (VInt 3)) in
  let w1 := (update_profile Sample.calm "u1" Sample.new_bio w).2 in
  let w2 := (update_profile Sample.calm "u1" Sample.new_bio w1).2 in
  (∃ row' : Dict,
      profiles w1 !! 0%nat = Some row' ∧
      row' !! "username" = Some (VStr "alice") ∧
      row' !! "bio" = Some (VStr "gossip")) ∧
  profiles w2 = profiles w1.
Proof.
  intros w w1 w2.
  destruct (update_profile_frame_and_idempotent Sample.calm "u1"
              Sample.new_bio w) as (_ & _ & Hframe & Hidem).
  split.
  - destruct (Hframe 0%nat (Sample.alice (Some (VInt 3))) eq_refl)
      as (row' & Hrow' & _ & Hkeep & Hset).
    exists row'. split_and!.
    + exact Hrow'.
    + rewrite (Hkeep "username" eq_refl). vm_compute. reflexivity.
    + eapply (Hset _ "bio" "gossip").
      * vm_compute. reflexivity.
      * vm_compute. reflexivity.
      * reflexivity.
  - eapply Hidem. vm_compute. reflexivity.
Defined.

(** C9.  [update_profile] never answers 404.  When the datastore update
    raises nothing the handler returns the rows the datastore reports as
    updated, with status 200, and for an id that matches no row that is
    the empty list. *)
Theorem update_profile_unknown_id_is_200
    (env : Env) (user_id : string) (p : ProfileUpdate.t) (w : World) :
  status_of (update_profile env user_id p w).1 ≠ 404 ∧
  (db_fault env
     (calls w ++ [DbUpdate (ProfileUpdate.dict_exclude_none p) user_id])
   = None →
   (update_profile env user_id p w).1
   = Ok ((ProfileUpdate.dict_exclude_none p ∪.)
           <$> filter (has_id user_id) (profiles w)) ∧
   status_of (update_profile env user_id p w).1 = 200 ∧
   (filter (has_id user_id) (profiles w) = [] →
    (update_profile env user_id p w).1 = Ok [])).
Proof.
  split.
  - destruct (update_profile_outcomes env user_id p w) as [-> | ->]; lia.
  - intros Hf. rewrite update_profile_run. simpl. rewrite Hf. simpl.
    split_and!; try done. by intros ->.
Qed.

Lemma update_profile_unknown_id_is_200_witness :
  let r := (update_profile Sample.calm "nobody" Sample.new_bio
              (Sample.world None)).1 in
  r = Ok [] ∧ status_of r = 200 ∧ status_of r ≠ 404.
Proof.
  intros r.
  destruct (update_profile_unknown_id_is_200 Sample.calm "nobody"
              Sample.new_bio (Sample.world None)) as (Hnot & Hok).
  destruct Hok as (_ & Hstatus & Hempty); [reflexivity|].
  split_and!.
  - apply Hempty. vm_compute. reflexivity.
  - exact Hstatus.
  - exact Hnot.
Defined.

(** ** get_tweets *)

Section GetTweets.

Variable env : Env.

(** The outer [except] answers 500; everything else is a body. *)
Lemma get_tweets_outcomes user_id limit w :
  (∃ body, (get_tweets env user_id limit w).1 = Ok body) ∨
  (∃ detail, (get_tweets env user_id limit w).1
             = Raise (HTTPException 500 detail)).
Proof.
  destruct (get_tweets env user_id limit w) as [r w'] eqn:E. simpl.
  unfold get_tweets in E. unfold try_except at 1 in E.
  match type of E with
  | context [match ?body w with _ => _ end] =>
      destruct (body w) as [[x|e] w1]
  end.
  - injection E as <- <-. eauto.
  - unfold bind, print, raise in E. simpl in E.
    injection E as <- <-. eauto.
Qed.

(** When the single-row fetch raises, for want of a row or otherwise,
    the handler answers 500 and the Twitter client is not called. *)
Lemma get_tweets_fetch_raises user_id limit w e :
  (db_select_single env "twitter_username" user_id w).1 = Raise e →
  get_tweets env user_id limit w
  = (Raise (HTTPException 500 (exn_str e)),
     {| profiles := profiles w;
        calls := calls w ++ [username_select user_id];
        stdout := stdout w
                    ++ ["General error in get_tweets: " +:+ exn_str e] |}).
Proof.
  intros H.
  destruct (db_select_single env "twitter_username" user_id w)
    as [r w1] eqn:E.
  simpl in H. subst r.
  pose proof (db_select_single_inv env _ _ _ _ _ E) as [-> _].
  unfold get_tweets, try_except.
  by rewrite (bind_Raise _ _ _ _ _ E).
Qed.

Lemma get_tweets_missing_profile user_id limit w :
  db_fault env (calls w ++ [username_select user_id]) = None →
  filter (has_id user_id) (profiles w) = [] →
  (get_tweets env user_id limit w).1
  = Raise (HTTPException 500
             "JSON object requested, multiple (or no) rows returned") ∧
  calls (get_tweets env user_id limit w).2
  = calls w ++ [username_select user_id].
Proof.
  intros Hf Hnone.
  erewrite get_tweets_fetch_raises;
    [|by rewrite (db_select_single_none env _ _ _ Hf Hnone)].
  done.
Qed.

Lemma select_columns_username_empty (row : Dict) :
  select_columns "twitter_username" row = ∅ ↔
  row !! "twitter_username" = None.
Proof.
  unfold select_columns. simpl.
  destruct (row !! "twitter_username") as [v|]; split; done.
Qed.

(** A profile without a Twitter username, or with a falsy one, gets
    the empty list, and the Twitter client is not called. *)
Lemma get_tweets_no_username user_id limit w row :
  db_fault env (calls w ++ [username_select user_id]) = None →
  filter (has_id user_id) (profiles w) = [row] →
  truthy (default VNone (row !! "twitter_username")) = false →
  (get_tweets env user_id limit w).1 = Ok no_tweets ∧
  calls (get_tweets env user_id limit w).2
  = calls w ++ [username_select user_id].
Proof.
  intros Hf Hrow Hfalsy.
  unfold get_tweets, try_except.
  rewrite (bind_step _ _ _ _ _ (db_select_single_ok env _ _ _ row Hf Hrow)).
  case_bool_decide as Hempty.
  - done.
  - rewrite select_columns_lookup, Hfalsy. done.
Qed.

End GetTweets.

(** The list path end to end: one post, mapped to its item. *)
Example get_tweets_one_post :
  (get_tweets Sample.one_post "u1" 10 (Sample.world None)).1
  = Ok {| TweetList.tweets :=
            [{| TweetItem.id := VInt 1790;
                TweetItem.text := VStr "hello";
                TweetItem.created_at := VStr "2024-05-01T12:00:00";
                TweetItem.likes := VInt 2;
                TweetItem.retweets := VInt 0;
                TweetItem.url := "https://twitter.com/i/web/status/1790" |}];
          TweetList.error := None |}.
Proof. by vm_compute. Qed.

(** A linked profile without posts and an unlinked profile both get the
    empty list; only the former reaches the Twitter client. *)
Example get_tweets_unlinked_profile :
  let out := get_tweets Sample.calm "u2" 10 (Sample.world None) in
  out.1 = Ok no_tweets ∧ calls out.2 = [username_select "u2"].
Proof. by vm_compute. Qed.

(** C7 (violated by the code).  The claim is that [get_tweets] answers
    the empty list with status 200 when the profile is missing.
    Evaluated on an id that matches no row, the handler answers status
    500: the single-row fetch raises before the [if not
    profile_response.data] test is reached, and the outer [except] turns
    the exception into a 500.  The Twitter client is not called. *)
Theorem get_tweets_unknown_id_is_500 :
  let out := get_tweets Sample.calm "nobody" 10 (Sample.world None) in
  status_of out.1 = 500 ∧
  out.1 ≠ Ok no_tweets ∧
  calls out.2 = [username_select "nobody"].
Proof. by vm_compute. Qed.

(** C8.  When the profile has a Twitter username and the account lookup
    raises, or the lookup answers an account and the post fetch raises,
    [get_tweets] returns the body with an empty [tweets] list and the
    exception's message under [error], with status 200. *)
Theorem get_tweets_twitter_error_is_200
    (env : Env) (user_id : string) (limit : Z) (w : World) (row : Dict)
    (username : Value) (e : Exn) :
  db_fault env (calls w ++ [username_select user_id]) = None →
  filter (has_id user_id) (profiles w) = [row] →
  row !! "twitter_username" = Some username →
  truthy username = true →
  let looked_up := calls w ++ [username_select user_id; TwGetUser username] in
  (tw_get_user env looked_up = Raise e ∨
   ∃ account,
     tw_get_user env looked_up = Ok (Some (mkResponse (Some account))) ∧
     tw_get_users_tweets env
       (looked_up ++ [TwGetUsersTweets (User.id account) limit]) = Raise e) →
  (get_tweets env user_id limit w).1
  = Ok {| TweetList.tweets := []; TweetList.error := Some (exn_str e) |} ∧
  status_of (get_tweets env user_id limit w).1 = 200.
Proof.
  intros Hf Hrow Huser Htruthy looked_up Hraise.
  assert (Hgoal : (get_tweets env user_id limit w).1
                  = Ok {| TweetList.tweets := [];
                          TweetList.error := Some (exn_str e) |});
    [|by rewrite Hgoal].
  unfold get_tweets. unfold try_except at 1.
  rewrite (bind_step _ _ _ _ _ (db_select_single_ok env _ _ _ row Hf Hrow)).
  rewrite bool_decide_false
    by (rewrite select_columns_username_empty; congruence).
  rewrite select_columns_lookup, Huser. simpl. rewrite Htruthy. simpl.
  unfold try_except, bind, twitter_get_user, twitter_get_users_tweets.
  simpl. subst looked_up. unfold username_select in *.
  rewrite <- !(assoc_L (++)). simpl.
  destruct Hraise as [Hlookup | (account & Hlookup & Hfetch)].
  - by rewrite Hlookup.
  - rewrite Hlookup. simpl.
    rewrite <- !(assoc_L (++)) in *. simpl in *. by rewrite Hfetch.
Qed.

Lemma get_tweets_twitter_error_is_200_witness :
  let r := (get_tweets Sample.lookup_down "u1" 10
              (Sample.world (Some (VInt 3)))).1 in
  r = Ok {| TweetList.tweets := [];
            TweetList.error := Some "429 Too Many Requests" |} ∧
  status_of r = 200.
Proof.
  apply (get_tweets_twitter_error_is_200 Sample.lookup_down "u1" 10
           (Sample.world (Some (VInt 3))) (Sample.alice (Some (VInt 3)))
           (VStr "alice_tw")
           (PyError "TooManyRequests" "429 Too Many Requests")).
  - reflexivity.
  - vm_compute. reflexivity.
  - vm_compute. reflexivity.
  - reflexivity.
  - left. reflexivity.
Defined.

(** ** Further properties of the profile handlers *)

Lemma db_select_single_Ok_inv env columns user_id w d w' :
  db_select_single env columns user_id w = (Ok d, w') →
  db_fault env (calls w ++ [DbSelectSingle columns user_id]) = None ∧
  w' = record_call (DbSelectSingle columns user_id) w ∧
  ∃ row, filter (has_id user_id) (profiles w) = [row] ∧
         d = select_columns columns row.
Proof.
  unfold db_select_single. simpl.
  destruct (db_fault env _); [discriminate|].
  destruct (filter _ _) as [|row [|]]; intros [= <- <-]; eauto.
Qed.

(** X1.  When the datastore answers, [get_profile] returns a row exactly
    when that row is the only one stored under the id; the row comes back
    whole.  No row, or several, is never a returned result. *)
Theorem get_profile_returns_the_only_row
    (env : Env) (user_id : string) (w : World) (row : Dict) :
  db_fault env (calls w ++ [DbSelectSingle "*" user_id]) = None →
  (get_profile env user_id w).1 = Ok row ↔
  filter (has_id user_id) (profiles w) = [row].
Proof.
  intros Hf. split; [|by apply get_profile_found].
  unfold get_profile, try_except, bind.
  destruct (db_select_single env "*" user_id w) as [[d|e] w1] eqn:E;
    [|discriminate].
  apply db_select_single_Ok_inv in E as (_ & _ & row' & Hrow' & ->).
  change (select_columns "*" row') with row'.
  case_bool_decide; simpl; [discriminate|]. by intros [= ->].
Qed.

Lemma get_profile_returns_the_only_row_witness :
  (get_profile Sample.calm "u2" (Sample.world None)).1 = Ok Sample.carol ∧
  ¬ (get_profile Sample.calm "u1" Scenario.twins).1 = Ok (Sample.alice None).
Proof.
  split.
  - apply (get_profile_returns_the_only_row Sample.calm "u2"
             (Sample.world None) Sample.carol); [reflexivity|].
    vm_compute. reflexivity.
  - intros H.
    apply (get_profile_returns_the_only_row Sample.calm "u1"
             Scenario.twins (Sample.alice None)) in H; [|reflexivity].
    vm_compute in H. discriminate H.
Defined.

(** X2.  [get_profile] only reads: whatever happens it leaves the table
    as it was and makes one datastore call and no other.  It either
    returns a row, printing nothing, or answers 500 with the fixed detail
    "Internal Server Error" and prints one line; when the datastore
    raised, that line carries the datastore's message, which the caller
    does not see. *)
Theorem get_profile_reads_and_logs
    (env : Env) (user_id : string) (w : World) :
  let out := get_profile env user_id w in
  profiles out.2 = profiles w ∧
  calls out.2 = calls w ++ [DbSelectSingle "*" user_id] ∧
  ((∃ row, out.1 = Ok row ∧ stdout out.2 = stdout w) ∨
   (out.1 = Raise (HTTPException 500 "Internal Server Error") ∧
    ∃ e, stdout out.2
         = stdout w ++ ["Error fetching profile: " +:+ exn_str e])) ∧
  (∀ e, db_fault env (calls w ++ [DbSelectSingle "*" user_id]) = Some e →
        out.1 = Raise (HTTPException 500 "Internal Server Error") ∧
        stdout out.2
        = stdout w ++ ["Error fetching profile: " +:+ exn_str e]).
Proof.
  unfold get_profile, try_except, bind, db_select_single, print, raise, ret.
  simpl.
  destruct (db_fault env _) as [e|]; simpl.
  - split_and!; try done; [right; eauto|]. by intros e' [= <-].
  - destruct (filter _ _) as [|row [|]]; simpl;
      try (solve [split_and!; try done; right; split; [done|];
                  by eexists (PyError "APIError" _)]).
    case_bool_decide; simpl; split_and!; try done;
      solve [right; split; [done|];
             by exists (HTTPException 404 "Profile not found")
            | left; eauto].
Qed.

Lemma get_profile_reads_and_logs_witness :
  let out := get_profile Scenario.db_down "u1" (Sample.world None) in
  out.1 = Raise (HTTPException 500 "Internal Server Error") ∧
  stdout out.2 = ["Error fetching profile: connection refused"].
Proof.
  intros out.
  destruct (get_profile_reads_and_logs Scenario.db_down "u1"
              (Sample.world None)) as (_ & _ & _ & Hlog).
  exact (Hlog Scenario.refused eq_refl).
Defined.

(** X3.  [update_profile] makes one datastore call, carrying exactly the
    dict of the non-null fields, and nothing else: no Twitter call, no
    output.  When the datastore raises, the caller gets status 400 with
    the exception's message as detail and the table is as it was. *)
Theorem update_profile_single_call
    (env : Env) (user_id : string) (p : ProfileUpdate.t) (w : World) :
  let out := update_profile env user_id p w in
  let sent := DbUpdate (ProfileUpdate.dict_exclude_none p) user_id in
  calls out.2 = calls w ++ [sent] ∧
  stdout out.2 = stdout w ∧
  (∀ e, db_fault env (calls w ++ [sent]) = Some e →
        out.1 = Raise (HTTPException 400 (exn_str e)) ∧
        profiles out.2 = profiles w).
Proof.
  intros out sent. subst out sent.
  rewrite update_profile_run. simpl.
  destruct (db_fault env _) as [e|]; simpl; split_and!; try done.
  by intros e' [= <-].
Qed.

Lemma update_profile_single_call_witness :
  let out := update_profile Scenario.db_down "u1" Sample.new_bio
               (Sample.world None) in
  out.1 = Raise (HTTPException 400 "connection refused") ∧
  profiles out.2 = profiles (Sample.world None).
Proof.
  intros out.
  destruct (update_profile_single_call Scenario.db_down "u1" Sample.new_bio
              (Sample.world None)) as (_ & _ & Herr).
  exact (Herr Scenario.refused eq_refl).
Defined.




(** X5.  Update, then read.  When the id addresses one row and the
    datastore answers both calls, [update_profile] returns that row as
    updated, a [get_profile] that follows returns the same row, and in it
    each non-null field of the update holds the update's value while
    every other column holds what was stored before. *)
Theorem update_then_get_profile
    (env : Env) (user_id : string) (p : ProfileUpdate.t) (w : World)
    (row : Dict) :
  let sent := DbUpdate (ProfileUpdate.dict_exclude_none p) user_id in
  db_fault env (calls w ++ [sent]) = None →
  db_fault env (calls w ++ [sent; DbSelectSingle "*" user_id]) = None →
  filter (has_id user_id) (profiles w) = [row] →
  let updated := update_profile env user_id p w in
  ∃ row' : Dict,
    updated.1 = Ok [row'] ∧
    (get_profile env user_id updated.2).1 = Ok row' ∧
    ∀ k, row' !! k = match ProfileUpdate.get p k with
                     | Some s => Some (VStr s)
                     | None => row !! k
                     end.
Proof.
  intros sent Hf1 Hf2 Hrow updated. subst updated sent.
  exists (ProfileUpdate.dict_exclude_none p ∪ row).
  rewrite update_profile_run. simpl. rewrite Hf1. simpl.
  split_and!.
  - by rewrite Hrow.
  - apply get_profile_found; simpl.
    + by rewrite <- (assoc_L (++)).
    + rewrite filter_update_rows by apply dict_exclude_none_id.
      by rewrite Hrow.
  - intros k. destruct (ProfileUpdate.get p k) as [s|] eqn:Hk.
    + apply lookup_union_Some_l. by rewrite dict_exclude_none_lookup, Hk.
    + apply lookup_union_r. by rewrite dict_exclude_none_lookup, Hk.
Qed.

Lemma update_then_get_profile_witness :
  let updated := update_profile Sample.calm "u1" Sample.new_bio
                   (Sample.world None) in
  ∃ row' : Dict,
    updated.1 = Ok [row'] ∧
    (get_profile Sample.calm "u1" updated.2).1 = Ok row' ∧
    ∀ k, row' !! k = match ProfileUpdate.get Sample.new_bio k with
                     | Some s => Some (VStr s)
                     | None => Sample.alice None !! k
                     end.
Proof.
  apply (update_then_get_profile Sample.calm "u1" Sample.new_bio
           (Sample.world None) (Sample.alice None)).
  - reflexivity.
  - reflexivity.
  - vm_compute. reflexivity.
Defined.

(** ** Further properties of create_tweet *)

Section CreateTweetPaths.

Variable env : Env.

(** Past the limit check the handler's run is decided by the post and by
    the update. *)
Lemma create_tweet_run user_id tweet w row n :
  db_fault env (calls w ++ [post_count_select user_id]) = None →
  filter (has_id user_id) (profiles w) = [row] →
  int_value (default (VInt 0) (row !! "twitter_post_count")) = Some n →
  n < 500 →
  create_tweet env user_id tweet w
  = let cs := posted_calls user_id tweet w in
    match tw_create_tweet env cs with
    | Raise e =>
        (Raise (bad_request e),
         {| profiles := profiles w; calls := cs; stdout := stdout w |})
    | Ok resp =>
        match subscript_opt (data resp) "id" with
        | Raise e =>
            (Raise (bad_request e),
             {| profiles := profiles w; calls := cs; stdout := stdout w |})
        | Ok tweet_id =>
            let payload :=
              count_payload n (utcnow_isoformat env cs) tweet_id in
            match db_fault env (cs ++ [DbUpdate payload user_id]) with
            | Some e =>
                (Raise (bad_request e),
                 {| profiles := profiles w;
                    calls := cs ++ [DbUpdate payload user_id];
                    stdout := stdout w |})
            | None =>
                (Ok {| TweetCreated.success := true;
                       TweetCreated.new_count := VInt (n + 1);
                       TweetCreated.tweet_id := tweet_id;
                       TweetCreated.tweet_url :=
                         "https://twitter.com/i/web/status/"
                           +:+ py_str tweet_id |},
                 {| profiles := update_rows payload user_id (profiles w);
                    calls := cs ++ [DbUpdate payload user_id];
                    stdout := stdout w |})
            end
        end
    end.
Proof.
  intros Hf1 Hrow Hn Hlim.
  assert (Hge : py_ge (default (VInt 0) (row !! "twitter_post_count")) 500
                = Ok false).
  { apply py_ge_Ok. exists n. split; [done|]. symmetry. by apply Z.leb_gt. }
  assert (Hadd : py_add (default (VInt 0) (row !! "twitter_post_count")) 1
                 = Ok (VInt (n + 1))).
  { apply py_add_Ok. eauto. }
  unfold create_tweet, try_except.
  rewrite (bind_step _ _ _ _ _ (db_select_single_ok env _ _ _ row Hf1 Hrow)).
  rewrite select_columns_lookup.
  unfold bind, lift, ret, raise, twitter_create_tweet, utcnow, db_update,
    bad_request, posted_calls, post_count_select, count_payload.
  rewrite Hge, Hadd. simpl.
  rewrite <- !(assoc_L (++)). simpl.
  destruct (tw_create_tweet env _) as [resp|e]; simpl;
    [|unfold record_call; simpl; by rewrite <- !(assoc_L (++))].
  destruct (subscript_opt (data resp) "id") as [tid|e]; simpl;
    [|unfold record_call; simpl; by rewrite <- !(assoc_L (++))].
  unfold record_call. simpl. rewrite <- !(assoc_L (++)). simpl.
  match goal with
  | |- context [match db_fault env ?cs with _ => _ end] =>
      destruct (db_fault env cs)
  end; done.
Qed.

(** Every call either stops at the count fetch with a 400, or has
    fetched an integer count below the ceiling from the one row of the
    profile. *)
Lemma create_tweet_cases user_id tweet w :
  (∃ detail,
      create_tweet env user_id tweet w
      = (Raise (HTTPException 400 detail),
         record_call (post_count_select user_id) w)) ∨
  (∃ row n,
      db_fault env (calls w ++ [post_count_select user_id]) = None ∧
      filter (has_id user_id) (profiles w) = [row] ∧
      int_value (default (VInt 0) (row !! "twitter_post_count")) = Some n ∧
      n < 500).
Proof.
  destruct (db_select_single env "twitter_post_count" user_id w)
    as [[d|e] w1] eqn:E.
  - apply db_select_single_Ok_inv in E as (Hf & -> & row & Hrow & ->).
    destruct (int_value (default (VInt 0) (row !! "twitter_post_count")))
      as [n|] eqn:Hn.
    + destruct (Z_lt_le_dec n 500) as [Hlt|Hge]; [right; eauto 10|].
      left. eexists.
      apply (create_tweet_over_limit env user_id tweet w row n); try done.
      destruct (row !! "twitter_post_count") as [[| b | m |]|];
        simpl in Hn; try discriminate.
      * injection Hn as <-. destruct b; simpl in Hge; lia.
      * by injection Hn as ->.
      * injection Hn as <-. lia.
    + left. unfold create_tweet, try_except.
      rewrite (bind_step _ _ _ _ _ (db_select_single_ok env _ _ _ row Hf Hrow)).
      rewrite select_columns_lookup.
      destruct (default (VInt 0) (row !! "twitter_post_count"));
        simpl in Hn; try discriminate; eexists; reflexivity.
  - left. pose proof (db_select_single_inv env _ _ _ _ _ E) as [-> _].
    unfold create_tweet, try_except.
    rewrite (bind_Raise _ _ _ _ _ E). eexists. reflexivity.
Qed.

(** A call that raises has left the table as it was. *)
Lemma create_tweet_Raise_profiles user_id tweet w e w' :
  create_tweet env user_id tweet w = (Raise e, w') →
  profiles w' = profiles w.
Proof.
  destruct (create_tweet_cases user_id tweet w)
    as [[d ->] | (row & n & Hf & Hrow & Hn & Hlim)].
  - by intros [= <- <-].
  - rewrite (create_tweet_run user_id tweet w row n) by done. simpl.
    destruct (tw_create_tweet env _) as [resp|e1]; [|by intros [= <- <-]].
    destruct (subscript_opt (data resp) "id") as [tid|e1];
      [|by intros [= <- <-]].
    match goal with
    | |- context [match db_fault env ?cs with _ => _ end] =>
        destruct (db_fault env cs)
    end; [by intros [= <- <-] | discriminate].
Qed.

End CreateTweetPaths.

(** X6.  [create_tweet] reaches the post-creation call only after it has
    fetched, from the one row stored under the id, a post count that is
    an integer below 500 (a missing count standing for 0).  In every
    other case (datastore error, no row or several, a null or textual
    count, the ceiling reached) it answers 400 having made the count
    fetch and no other call, and the table is as it was. *)
Theorem create_tweet_posts_only_below_ceiling
    (env : Env) (user_id : string) (tweet : TweetCreate.t) (w : World) :
  let out := create_tweet env user_id tweet w in
  (∃ row n,
      filter (has_id user_id) (profiles w) = [row] ∧
      int_value (default (VInt 0) (row !! "twitter_post_count")) = Some n ∧
      n < 500 ∧
      ∃ rest, calls out.2 = posted_calls user_id tweet w ++ rest) ∨
  (status_of out.1 = 400 ∧
   calls out.2 = calls w ++ [post_count_select user_id] ∧
   profiles out.2 = profiles w).
Proof.
  intros out. subst out.
  destruct (create_tweet_cases env user_id tweet w)
    as [[d ->] | (row & n & Hf & Hrow & Hn & Hlim)]; [by right|].
  left. exists row, n. split_and!; try done.
  rewrite (create_tweet_run env user_id tweet w row n) by done. simpl.
  destruct (tw_create_tweet env _) as [resp|e];
    [|exists []; simpl; by rewrite (right_id_L [] (++))].
  destruct (subscript_opt (data resp) "id") as [tid|e];
    [|exists []; simpl; by rewrite (right_id_L [] (++))].
  match goal with
  | |- context [match db_fault env ?cs with _ => _ end] =>
      destruct (db_fault env cs)
  end; by eexists [_].
Qed.

(** X7.  A profile whose post count is stored as null, or as text, cannot
    tweet: the comparison with the ceiling raises, the handler answers
    400, and no post is attempted. *)
Theorem create_tweet_null_count_is_400
    (env : Env) (user_id : string) (tweet : TweetCreate.t) (w : World)
    (row : Dict) (count : Value) :
  filter (has_id user_id) (profiles w) = [row] →
  row !! "twitter_post_count" = Some count →
  int_value count = None →
  let out := create_tweet env user_id tweet w in
  status_of out.1 = 400 ∧
  calls out.2 = calls w ++ [post_count_select user_id] ∧
  profiles out.2 = profiles w.
Proof.
  intros Hrow Hcount Hint out. subst out.
  destruct (create_tweet_cases env user_id tweet w)
    as [[d ->] | (row' & n & _ & Hrow' & Hn & _)]; [done|].
  assert (row' = row) as -> by congruence.
  rewrite Hcount in Hn. simpl in Hn. congruence.
Qed.

Lemma create_tweet_null_count_is_400_witness :
  let out := create_tweet Sample.calm "u1" Sample.hello
               (Sample.world (Some VNone)) in
  status_of out.1 = 400 ∧
  calls out.2 = [post_count_select "u1"] ∧
  profiles out.2 = profiles (Sample.world (Some VNone)).
Proof.
  apply (create_tweet_null_count_is_400 Sample.calm "u1" Sample.hello
           (Sample.world (Some VNone)) (Sample.alice (Some VNone)) VNone).
  - vm_compute. reflexivity.
  - vm_compute. reflexivity.
  - reflexivity.
Defined.

(** X8.  When the post-creation call raises, [create_tweet] answers 400
    with the exception's message as detail; the update is not attempted
    and the stored count is unchanged. *)
Theorem create_tweet_post_raises
    (env : Env) (user_id : string) (tweet : TweetCreate.t) (w : World)
    (row : Dict) (n : Z) (e : Exn) :
  db_fault env (calls w ++ [post_count_select user_id]) = None →
  filter (has_id user_id) (profiles w) = [row] →
  int_value (default (VInt 0) (row !! "twitter_post_count")) = Some n →
  n < 500 →
  tw_create_tweet env (posted_calls user_id tweet w) = Raise e →
  let out := create_tweet env user_id tweet w in
  out.1 = Raise (HTTPException 400 (exn_str e)) ∧
  calls out.2 = posted_calls user_id tweet w ∧
  profiles out.2 = profiles w.
Proof.
  intros Hf Hrow Hn Hlim Htw out. subst out.
  rewrite (create_tweet_run env user_id tweet w row n) by done. simpl.
  by rewrite Htw.
Qed.

Lemma create_tweet_post_raises_witness :
  let w := Sample.world (Some (VInt 3)) in
  let out := create_tweet Scenario.post_refused "u1" Sample.hello w in
  out.1 = Raise (HTTPException 400 "403 Forbidden") ∧
  calls out.2 = posted_calls "u1" Sample.hello w ∧
  profiles out.2 = profiles w.
Proof.
  apply (create_tweet_post_raises Scenario.post_refused "u1" Sample.hello
           (Sample.world (Some (VInt 3))) (Sample.alice (Some (VInt 3))) 3
           Scenario.forbidden).
  - reflexivity.
  - vm_compute. reflexivity.
  - vm_compute. reflexivity.
  - lia.
  - reflexivity.
Defined.

(** X9.  When the post is made and the datastore update then raises,
    [create_tweet] answers 400 with the datastore's message: the post
    call is in the history, the update was attempted with the incremented
    count, and the table, stored count included, is as it was before the
    request. *)
Theorem create_tweet_update_raises_after_post
    (env : Env) (user_id : string) (tweet : TweetCreate.t) (w : World)
    (row : Dict) (n : Z) (resp : Response Dict) (tweet_id : Value)
    (e : Exn) :
  db_fault env (calls w ++ [post_count_select user_id]) = None →
  filter (has_id user_id) (profiles w) = [row] →
  int_value (default (VInt 0) (row !! "twitter_post_count")) = Some n →
  n < 500 →
  tw_create_tweet env (posted_calls user_id tweet w) = Ok resp →
  subscript_opt (data resp) "id" = Ok tweet_id →
  let update :=
    DbUpdate
      (count_payload n (utcnow_isoformat env (posted_calls user_id tweet w))
         tweet_id) user_id in
  db_fault env (posted_calls user_id tweet w ++ [update]) = Some e →
  let out := create_tweet env user_id tweet w in
  out.1 = Raise (HTTPException 400 (exn_str e)) ∧
  calls out.2 = posted_calls user_id tweet w ++ [update] ∧
  profiles out.2 = profiles w.
Proof.
  intros Hf Hrow Hn Hlim Htw Hid update Hf2 out. subst out update.
  rewrite (create_tweet_run env user_id tweet w row n) by done. simpl.
  by rewrite Htw, Hid, Hf2.
Qed.

Lemma create_tweet_update_raises_after_post_witness :
  let w := Sample.world (Some (VInt 3)) in
  let out := create_tweet Scenario.update_refused "u1" Sample.hello w in
  out.1 = Raise (HTTPException 400 "connection refused") ∧
  calls out.2
  = posted_calls "u1" Sample.hello w
      ++ [DbUpdate (count_payload 3 "2024-05-01T12:00:00" (VStr "1790"))
            "u1"] ∧
  profiles out.2 = profiles w.
Proof.
  apply (create_tweet_update_raises_after_post Scenario.update_refused "u1"
           Sample.hello (Sample.world (Some (VInt 3)))
           (Sample.alice (Some (VInt 3))) 3
           (mkResponse (Some {[ "id" := VStr "1790" ]})) (VStr "1790")
           Scenario.refused).
  - reflexivity.
  - vm_compute. reflexivity.
  - vm_compute. reflexivity.
  - lia.
  - reflexivity.
  - vm_compute. reflexivity.
  - reflexivity.
Defined.

(** X10.  A [create_tweet] call that does not return leaves the table
    exactly as it was: the table changes only together with a returned
    result. *)
Theorem create_tweet_failure_keeps_table
    (env : Env) (user_id : string) (tweet : TweetCreate.t) (w : World)
    (e : Exn) :
  (create_tweet env user_id tweet w).1 = Raise e →
  profiles (create_tweet env user_id tweet w).2 = profiles w.
Proof.
  destruct (create_tweet env user_id tweet w) as [r w'] eqn:E. simpl.
  intros ->. by apply (create_tweet_Raise_profiles env user_id tweet w e).
Qed.

Lemma create_tweet_failure_keeps_table_witness :
  profiles
    (create_tweet Scenario.update_refused "u1" Sample.hello
       (Sample.world (Some (VInt 3)))).2
  = profiles (Sample.world (Some (VInt 3))).
Proof.
  apply (create_tweet_failure_keeps_table Scenario.update_refused "u1"
           Sample.hello (Sample.world (Some (VInt 3)))
           (HTTPException 400 "connection refused")).
  vm_compute. reflexivity.
Defined.

Lemma count_payload_other n now tweet_id (k : string) :
  k ∉ post_columns → count_payload n now tweet_id !! k = None.
Proof.
  unfold post_columns. rewrite !not_elem_of_cons.
  intros (H1 & H2 & H3 & _). unfold count_payload.
  rewrite !lookup_insert_ne by done. by apply lookup_singleton_ne.
Qed.

(** The state a returned call leaves behind, read off the profile's
    row. *)
Lemma create_tweet_Ok_row env user_id tweet w r w' :
  create_tweet env user_id tweet w = (Ok r, w') →
  ∃ row n payload,
    filter (has_id user_id) (profiles w) = [row] ∧
    payload = count_payload n
                (utcnow_isoformat env (posted_calls user_id tweet w))
                (TweetCreated.tweet_id r) ∧
    TweetCreated.new_count r = VInt (n + 1) ∧
    n < 500 ∧
    profiles w' = update_rows payload user_id (profiles w) ∧
    filter (has_id user_id) (profiles w') = [payload ∪ row].
Proof.
  intros H.
  apply create_tweet_Ok_inv in H
    as (row & n & resp & d & tid & Hrow & Hn & Hlim & _ & _ & _ & -> & ->).
  simpl. eexists row, n, _. split_and!; try done.
  rewrite filter_update_rows by apply count_payload_id. by rewrite Hrow.
Qed.

(** X11.  A returned [create_tweet] changes three columns of the
    profile's rows and nothing else: the post count becomes the returned
    [new_count], [last_tweet_id] the returned [tweet_id], [last_tweet_at]
    the clock reading; every other column of those rows, and every row
    stored under another id, is as it was. *)
Theorem create_tweet_writes_three_columns
    (env : Env) (user_id : string) (tweet : TweetCreate.t) (w w' : World)
    (r : TweetCreated.t) :
  create_tweet env user_id tweet w = (Ok r, w') →
  length (profiles w') = length (profiles w) ∧
  ∀ (i : nat) (row : Dict),
    profiles w !! i = Some row →
    ∃ row' : Dict,
      profiles w' !! i = Some row' ∧
      (¬ has_id user_id row → row' = row) ∧
      (has_id user_id row →
       row' !! "twitter_post_count" = Some (TweetCreated.new_count r) ∧
       row' !! "last_tweet_id" = Some (TweetCreated.tweet_id r) ∧
       row' !! "last_tweet_at"
       = Some (VStr (utcnow_isoformat env (posted_calls user_id tweet w)))) ∧
      (∀ k, k ∉ post_columns → row' !! k = row !! k).
Proof.
  intros H.
  apply create_tweet_Ok_row in H
    as (row0 & n & payload & _ & -> & Hcount & _ & -> & _).
  split; [apply update_rows_length|].
  intros i row Hrow. rewrite update_rows_lookup, Hrow. simpl.
  eexists. split; [done|].
  destruct (decide (has_id user_id row)) as [Hid|Hid]; split_and!; try done.
  - intros _. rewrite Hcount. split_and!; by apply lookup_union_Some_l.
  - intros k Hk. apply lookup_union_r. by apply count_payload_other.
Qed.

Lemma create_tweet_writes_three_columns_witness :
  let w := Sample.world (Some (VInt 7)) in
  let w' := (create_tweet Sample.calm "u1" Sample.hello w).2 in
  ∃ row' : Dict,
    profiles w' !! 0%nat = Some row' ∧
    row' !! "twitter_post_count" = Some (VInt 8) ∧
    row' !! "last_tweet_id" = Some (VStr "1790") ∧
    row' !! "bio" = Some (VStr "hi") ∧
    profiles w' !! 1%nat = Some Sample.carol.
Proof.
  intros w w'.
  destruct (create_tweet_writes_three_columns Sample.calm "u1" Sample.hello
              w w'
              {| TweetCreated.success := true;
                 TweetCreated.new_count := VInt 8;
                 TweetCreated.tweet_id := VStr "1790";
                 TweetCreated.tweet_url :=
                   "https://twitter.com/i/web/status/1790" |})
    as (_ & Hframe).
  - vm_compute. reflexivity.
  - destruct (Hframe 0%nat (Sample.alice (Some (VInt 7))) eq_refl)
      as (row' & Hrow' & _ & Hset & Hkeep).
    destruct (Hframe 1%nat Sample.carol eq_refl)
      as (carol' & Hcarol' & Hother & _).
    destruct Hset as (Hc & Hid & _); [vm_compute; reflexivity|].
    exists row'. split; [exact Hrow'|]. split; [exact Hc|].
    split; [exact Hid|]. split.
    + rewrite (Hkeep "bio"); [vm_compute; reflexivity|].
      unfold post_columns. rewrite !not_elem_of_cons.
      split_and!; try done. apply not_elem_of_nil.
    + rewrite Hcarol'. f_equal. apply Hother.
      vm_compute. discriminate.
Defined.



(** X13.  Two [create_tweet] calls in a row on the same profile, both
    returning: the second [new_count] is the first plus 1. *)
Theorem create_tweet_twice_counts_up
    (env : Env) (user_id : string) (tweet1 tweet2 : TweetCreate.t)
    (w w1 w2 : World) (r1 r2 : TweetCreated.t) :
  create_tweet env user_id tweet1 w = (Ok r1, w1) →
  create_tweet env user_id tweet2 w1 = (Ok r2, w2) →
  ∃ m, TweetCreated.new_count r1 = VInt m ∧
       TweetCreated.new_count r2 = VInt (m + 1).
Proof.
  intros H1 H2.
  apply create_tweet_Ok_row in H1
    as (row & n & payload & _ & Hpay & Hcount & _ & _ & Hrow1).
  apply create_tweet_Ok_inv in H2
    as (row' & n' & resp & d & tid & Hrow' & Hn' & _ & _ & _ & _ & -> & _).
  assert (row' = payload ∪ row) as -> by congruence.
  rewrite (lookup_union_Some_l payload row "twitter_post_count"
             (VInt (n + 1))) in Hn'
    by (subst payload; apply count_payload_count).
  simpl in Hn'. injection Hn' as <-.
  exists (n + 1). by split.
Qed.

Lemma create_tweet_twice_counts_up_witness :
  ∃ m, VInt 8 = VInt m ∧ VInt 9 = VInt (m + 1).
Proof.
  pose (w := Sample.world (Some (VInt 7))).
  pose (out1 := create_tweet Sample.calm "u1" Sample.hello w).
  pose (out2 := create_tweet Sample.calm "u1" Sample.hello out1.2).
  apply (create_tweet_twice_counts_up Sample.calm "u1" Sample.hello
           Sample.hello w out1.2 out2.2
           {| TweetCreated.success := true;
              TweetCreated.new_count := VInt 8;
              TweetCreated.tweet_id := VStr "1790";
              TweetCreated.tweet_url :=
                "https://twitter.com/i/web/status/1790" |}
           {| TweetCreated.success := true;
              TweetCreated.new_count := VInt 9;
              TweetCreated.tweet_id := VStr "1790";
              TweetCreated.tweet_url :=
                "https://twitter.com/i/web/status/1790" |}).
  - vm_compute. reflexivity.
  - vm_compute. reflexivity.
Defined.

(** X14.  Once a [create_tweet] call has returned [new_count = 500], the
    next call on the same profile answers 400 after the count fetch
    alone: nothing is posted and nothing is written. *)
Theorem create_tweet_blocked_after_500
    (env : Env) (user_id : string) (tweet1 tweet2 : TweetCreate.t)
    (w w1 : World) (r1 : TweetCreated.t) :
  create_tweet env user_id tweet1 w = (Ok r1, w1) →
  TweetCreated.new_count r1 = VInt 500 →
  let out := create_tweet env user_id tweet2 w1 in
  status_of out.1 = 400 ∧
  calls out.2 = calls w1 ++ [post_count_select user_id] ∧
  profiles out.2 = profiles w1.
Proof.
  intros H1 H500 out. subst out.
  apply create_tweet_Ok_row in H1
    as (row & n & payload & _ & Hpay & Hcount & _ & _ & Hrow1).
  destruct (create_tweet_cases env user_id tweet2 w1)
    as [[d ->] | (row' & n' & _ & Hrow' & Hn' & Hlim')]; [done|].
  exfalso.
  assert (row' = payload ∪ row) as -> by congruence.
  rewrite (lookup_union_Some_l payload row "twitter_post_count"
             (VInt (n + 1))) in Hn'
    by (subst payload; apply count_payload_count).
  simpl in Hn'. injection Hn' as <-.
  rewrite Hcount in H500. injection H500 as H500. lia.
Qed.

Lemma create_tweet_blocked_after_500_witness :
  let w1 := (create_tweet Sample.calm "u1" Sample.hello
               (Sample.world (Some (VInt 499)))).2 in
  let out := create_tweet Sample.calm "u1" Sample.hello w1 in
  status_of out.1 = 400 ∧
  calls out.2 = calls w1 ++ [post_count_select "u1"] ∧
  profiles out.2 = profiles w1.
Proof.
  apply (create_tweet_blocked_after_500 Sample.calm "u1" Sample.hello
           Sample.hello (Sample.world (Some (VInt 499))) _
           {| TweetCreated.success := true;
              TweetCreated.new_count := VInt 500;
              TweetCreated.tweet_id := VStr "1790";
              TweetCreated.tweet_url :=
                "https://twitter.com/i/web/status/1790" |}).
  - vm_compute. reflexivity.
  - reflexivity.
Defined.

(** ** Further properties of get_tweets *)

Section Traverse.

Context {A B : Type} (f : A → Result B).

Lemma traverse_Ok_lookup (l : list A) (ys : list B) :
  traverse f l = Ok ys →
  length ys = length l ∧
  ∀ (i : nat) (x : A), l !! i = Some x →
                       ∃ y, ys !! i = Some y ∧ f x = Ok y.
Proof.
  revert ys. induction l as [|x l IH]; intros ys; simpl.
  - intros [= <-]. split; [done|]. intros i x Hx. by destruct i.
  - destruct (f x) as [y|e] eqn:Hy; simpl; [|discriminate].
    destruct (traverse f l) as [ys'|e] eqn:Hys; simpl; [|discriminate].
    intros [= <-]. destruct (IH ys' eq_refl) as [Hlen Hlook].
    split; [simpl; by rewrite Hlen|].
    intros [|i] x' Hx'; simpl in *.
    + injection Hx' as <-. eauto.
    + by apply Hlook.
Qed.

Lemma traverse_all_Ok (l : list A) :
  (∀ x, x ∈ l → ∃ y, f x = Ok y) → ∃ ys, traverse f l = Ok ys.
Proof.
  induction l as [|x l IH]; intros Hall; simpl; [eauto|].
  destruct (Hall x) as [y ->]; [by left|]. simpl.
  destruct IH as [ys ->]; [intros x' Hx'; apply Hall; by right|].
  simpl. eauto.
Qed.

Lemma traverse_one_Raise (l : list A) (x : A) :
  x ∈ l → (∃ e, f x = Raise e) → ∃ e, traverse f l = Raise e.
Proof.
  intros Hin [e He].
  destruct (traverse f l) as [ys|e'] eqn:Hys; [|eauto].
  apply traverse_Ok_lookup in Hys as [_ Hlook].
  apply list_elem_of_lookup in Hin as [i Hi].
  destruct (Hlook i x Hi) as (y & _ & Hy). congruence.
Qed.

End Traverse.

Lemma tweet_item_lacks_metric (tweet : Tweet.t) :
  lacks_metric tweet → ∃ e, tweet_item tweet = Raise e.
Proof.
  unfold lacks_metric, tweet_item, subscript_opt, subscript.
  destruct (Tweet.public_metrics tweet) as [m|]; simpl; [|eauto].
  intros H. destruct (H m eq_refl) as [-> | Hr]; simpl; [eauto|].
  destruct (m !! "like_count"); simpl; [|eauto]. rewrite Hr. simpl. eauto.
Qed.

Section GetTweetsPaths.

Variable env : Env.

(** With a username in hand the handler's run is decided by the two
    Twitter calls and by the mapping of the posts. *)
Lemma get_tweets_run user_id limit w row username :
  db_fault env (calls w ++ [username_select user_id]) = None →
  filter (has_id user_id) (profiles w) = [row] →
  row !! "twitter_username" = Some username →
  truthy username = true →
  get_tweets env user_id limit w
  = let cs1 := looked_up_calls user_id username w in
    match tw_get_user env cs1 with
    | Raise e =>
        (Ok (twitter_failed e),
         {| profiles := profiles w; calls := cs1;
            stdout := stdout w ++ ["Twitter API error: " +:+ exn_str e] |})
    | Ok user =>
        match user ≫= data with
        | None =>
            (Ok no_tweets,
             {| profiles := profiles w; calls := cs1;
                stdout := stdout w
                  ++ ["No Twitter user found for username "
                        +:+ py_str username] |})
        | Some account =>
            let cs2 := cs1 ++ [TwGetUsersTweets (User.id account) limit] in
            match tw_get_users_tweets env cs2 with
            | Raise e =>
                (Ok (twitter_failed e),
                 {| profiles := profiles w; calls := cs2;
                    stdout := stdout w
                      ++ ["Twitter API error: " +:+ exn_str e] |})
            | Ok tweets =>
                match tweets ≫= data with
                | None | Some [] =>
                    (Ok no_tweets,
                     {| profiles := profiles w; calls := cs2;
                        stdout := stdout w
                          ++ ["No tweets found for user "
                                +:+ py_str username] |})
                | Some tweets_data =>
                    match traverse tweet_item tweets_data with
                    | Ok items =>
                        (Ok {| TweetList.tweets := items;
                               TweetList.error := None |},
                         {| profiles := profiles w; calls := cs2;
                            stdout := stdout w |})
                    | Raise e =>
                        (Ok (twitter_failed e),
                         {| profiles := profiles w; calls := cs2;
                            stdout := stdout w
                              ++ ["Twitter API error: " +:+ exn_str e] |})
                    end
                end
            end
        end
    end.
Proof.
  intros Hf Hrow Huser Htruthy.
  unfold get_tweets. unfold try_except at 1.
  rewrite (bind_step _ _ _ _ _ (db_select_single_ok env _ _ _ row Hf Hrow)).
  rewrite bool_decide_false
    by (rewrite select_columns_username_empty; congruence).
  rewrite select_columns_lookup, Huser. simpl. rewrite Htruthy. simpl.
  unfold try_except, bind, twitter_get_user, twitter_get_users_tweets,
    print, ret, lift, record_call, looked_up_calls, username_select,
    twitter_failed.
  simpl. rewrite <- !(assoc_L (++)). simpl.
  destruct (tw_get_user env _) as [user|e]; simpl; [|done].
  destruct (user ≫= data) as [account|]; simpl; [|done].
  rewrite <- !(assoc_L (++)). simpl.
  destruct (tw_get_users_tweets env _) as [tweets|e]; simpl; [|done].
  destruct (tweets ≫= data) as [[|t ts]|]; simpl; try done.
  destruct (rbind (tweet_item t) _) as [items|e]; simpl; by destruct w.
Qed.

(** Every call either stops at the username fetch, with the empty list
    or a 500, or has fetched a truthy username from the one row of the
    profile. *)
Lemma get_tweets_cases user_id limit w :
  let out := get_tweets env user_id limit w in
  (calls out.2 = calls w ++ [username_select user_id] ∧
   profiles out.2 = profiles w ∧
   (out.1 = Ok no_tweets ∨ ∃ detail, out.1 = Raise (HTTPException 500 detail)))
  ∨
  (∃ row username,
      db_fault env (calls w ++ [username_select user_id]) = None ∧
      filter (has_id user_id) (profiles w) = [row] ∧
      row !! "twitter_username" = Some username ∧
      truthy username = true).
Proof.
  intros out. subst out.
  destruct (db_select_single env "twitter_username" user_id w)
    as [[d|e] w1] eqn:E.
  - apply db_select_single_Ok_inv in E as (Hf & _ & row & Hrow & _).
    destruct (row !! "twitter_username") as [username|] eqn:Huser.
    + destruct (truthy username) eqn:Htruthy; [right; eauto 10|].
      left.
      destruct (get_tweets_no_username env user_id limit w row Hf Hrow)
        as [Hr Hc]; [by rewrite Huser|].
      split_and!; [done| |by left].
      unfold get_tweets, try_except.
      rewrite (bind_step _ _ _ _ _ (db_select_single_ok env _ _ _ row Hf Hrow)).
      rewrite bool_decide_false
        by (rewrite select_columns_username_empty; congruence).
      rewrite select_columns_lookup, Huser. simpl. by rewrite Htruthy.
    + left.
      destruct (get_tweets_no_username env user_id limit w row Hf Hrow)
        as [Hr Hc]; [by rewrite Huser|].
      split_and!; [done| |by left].
      unfold get_tweets, try_except.
      rewrite (bind_step _ _ _ _ _ (db_select_single_ok env _ _ _ row Hf Hrow)).
      by rewrite bool_decide_true
        by (by apply select_columns_username_empty).
  - left. rewrite (get_tweets_fetch_raises env user_id limit w e)
      by (by rewrite E).
    simpl. split_and!; try done. right. eauto.
Qed.

End GetTweetsPaths.

(** X15.  [get_tweets] only reads.  Whatever happens it leaves the table
    as it was, answers 200 or 500, and makes at most three calls: the
    username fetch, then possibly the account lookup and the post fetch.
    It never posts and never updates. *)
Theorem get_tweets_reads_only
    (env : Env) (user_id : string) (limit : Z) (w : World) :
  let out := get_tweets env user_id limit w in
  profiles out.2 = profiles w ∧
  (status_of out.1 = 200 ∨ status_of out.1 = 500) ∧
  ∃ reads,
    calls out.2 = calls w ++ username_select user_id :: reads ∧
    (length reads ≤ 2)%nat ∧
    Forall (λ c, is_timeline_read c = true) reads.
Proof.
  intros out. subst out.
  destruct (get_tweets_cases env user_id limit w)
    as [(Hc & Hp & Hr) | (row & username & Hf & Hrow & Huser & Htruthy)].
  - split; [done|]. split.
    + destruct Hr as [-> | [d ->]]; simpl; auto.
    + exists []. split_and!; [done|simpl; lia|constructor].
  - rewrite (get_tweets_run env user_id limit w row username) by done.
    unfold looked_up_calls. simpl.
    destruct (tw_get_user env _) as [user|e]; simpl;
      [|split_and!; auto; eexists [_]; split_and!;
        [done|simpl; lia|by repeat constructor]].
    destruct (user ≫= data) as [account|]; simpl;
      [|split_and!; auto; eexists [_]; split_and!;
        [done|simpl; lia|by repeat constructor]].
    assert (Hreads :
      ∃ reads,
        (calls w ++ [username_select user_id; TwGetUser username])
          ++ [TwGetUsersTweets (User.id account) limit]
        = calls w ++ username_select user_id :: reads ∧
        (length reads ≤ 2)%nat ∧
        Forall (λ c, is_timeline_read c = true) reads).
    { eexists [_; _]. rewrite <- (assoc_L (++)). simpl.
      split_and!; [done|simpl; lia|by repeat constructor]. }
    destruct (tw_get_users_tweets env _) as [tweets|e]; simpl;
      [|by split_and!; auto].
    destruct (tweets ≫= data) as [[|t ts]|]; simpl;
      try (by split_and!; auto).
    destruct (rbind (tweet_item t) _) as [items|e]; simpl;
      by split_and!; auto.
Qed.

(** X16.  When the datastore raises on the username fetch, [get_tweets]
    answers 500 with the datastore's message as detail, logs it, and
    makes no Twitter call. *)
Theorem get_tweets_datastore_error
    (env : Env) (user_id : string) (limit : Z) (w : World) (e : Exn) :
  db_fault env (calls w ++ [username_select user_id]) = Some e →
  let out := get_tweets env user_id limit w in
  out.1 = Raise (HTTPException 500 (exn_str e)) ∧
  calls out.2 = calls w ++ [username_select user_id] ∧
  stdout out.2 = stdout w ++ ["General error in get_tweets: " +:+ exn_str e].
Proof.
  intros Hf out. subst out.
  rewrite (get_tweets_fetch_raises env user_id limit w e); [done|].
  by rewrite (db_select_single_fault env _ _ _ e).
Qed.

Lemma get_tweets_datastore_error_witness :
  let out := get_tweets Scenario.db_down "u1" 10 (Sample.world None) in
  out.1 = Raise (HTTPException 500 "connection refused") ∧
  calls out.2 = [username_select "u1"] ∧
  stdout out.2 = ["General error in get_tweets: connection refused"].
Proof.
  apply (get_tweets_datastore_error Scenario.db_down "u1" 10
           (Sample.world None) Scenario.refused).
  reflexivity.
Defined.

(** X17.  For a stored profile whose Twitter username is missing, null
    or empty, [get_tweets] returns the body with an empty list and no
    [error] key, after the username fetch alone: the Twitter client is
    not called and the table is as it was. *)
Theorem get_tweets_without_username
    (env : Env) (user_id : string) (limit : Z) (w : World) (row : Dict) :
  db_fault env (calls w ++ [username_select user_id]) = None →
  filter (has_id user_id) (profiles w) = [row] →
  truthy (default VNone (row !! "twitter_username")) = false →
  let out := get_tweets env user_id limit w in
  out.1 = Ok no_tweets ∧
  calls out.2 = calls w ++ [username_select user_id] ∧
  profiles out.2 = profiles w.
Proof.
  intros Hf Hrow Hfalsy out. subst out.
  destruct (get_tweets_no_username env user_id limit w row Hf Hrow Hfalsy)
    as [Hr Hc].
  split_and!; [done|done|].
  destruct (get_tweets_cases env user_id limit w)
    as [(_ & Hp & _) | (row' & username & _ & Hrow' & Huser & Htruthy)];
    [done|].
  assert (row' = row) as -> by congruence.
  rewrite Huser in Hfalsy. simpl in Hfalsy. congruence.
Qed.

Lemma get_tweets_without_username_witness :
  let out := get_tweets Sample.calm "u2" 10 (Sample.world None) in
  out.1 = Ok no_tweets ∧
  calls out.2 = [username_select "u2"] ∧
  profiles out.2 = profiles (Sample.world None).
Proof.
  apply (get_tweets_without_username Sample.calm "u2" 10 (Sample.world None)
           Sample.carol).
  - reflexivity.
  - vm_compute. reflexivity.
  - vm_compute. reflexivity.
Defined.

(** X18.  When the account lookup answers without an account (a falsy
    response, or one without data), [get_tweets] returns the empty list
    without an [error] key, and the posts are not fetched. *)
Theorem get_tweets_unknown_account
    (env : Env) (user_id : string) (limit : Z) (w : World) (row : Dict)
    (username : Value) (user : option (Response User.t)) :
  db_fault env (calls w ++ [username_select user_id]) = None →
  filter (has_id user_id) (profiles w) = [row] →
  row !! "twitter_username" = Some username →
  truthy username = true →
  tw_get_user env (looked_up_calls user_id username w) = Ok user →
  user ≫= data = None →
  let out := get_tweets env user_id limit w in
  out.1 = Ok no_tweets ∧
  calls out.2 = looked_up_calls user_id username w.
Proof.
  intros Hf Hrow Huser Htruthy Hlookup Hnone out. subst out.
  rewrite (get_tweets_run env user_id limit w row username) by done.
  simpl. by rewrite Hlookup, Hnone.
Qed.

Lemma get_tweets_unknown_account_witness :
  let w := Sample.world None in
  let out := get_tweets Scenario.unknown_account "u1" 10 w in
  out.1 = Ok no_tweets ∧
  calls out.2 = looked_up_calls "u1" (VStr "alice_tw") w.
Proof.
  apply (get_tweets_unknown_account Scenario.unknown_account "u1" 10
           (Sample.world None) (Sample.alice None) (VStr "alice_tw")
           (Some (mkResponse None))).
  - reflexivity.
  - vm_compute. reflexivity.
  - vm_compute. reflexivity.
  - reflexivity.
  - reflexivity.
  - reflexivity.
Defined.

(** X19.  When the post fetch answers with no posts (a falsy response,
    no data, or an empty list), [get_tweets] returns the empty list
    without an [error] key.  The fetch was made for the account's id with
    the request's [limit] passed on unchanged. *)
Theorem get_tweets_empty_timeline
    (env : Env) (user_id : string) (limit : Z) (w : World) (row : Dict)
    (username : Value) (account : User.t)
    (tweets : option (Response (list Tweet.t))) :
  db_fault env (calls w ++ [username_select user_id]) = None →
  filter (has_id user_id) (profiles w) = [row] →
  row !! "twitter_username" = Some username →
  truthy username = true →
  tw_get_user env (looked_up_calls user_id username w)
  = Ok (Some (mkResponse (Some account))) →
  let fetched :=
    looked_up_calls user_id username w
      ++ [TwGetUsersTweets (User.id account) limit] in
  tw_get_users_tweets env fetched = Ok tweets →
  tweets ≫= data = None ∨ tweets ≫= data = Some [] →
  let out := get_tweets env user_id limit w in
  out.1 = Ok no_tweets ∧ calls out.2 = fetched.
Proof.
  intros Hf Hrow Huser Htruthy Hlookup fetched Hfetch Hempty out.
  subst out fetched.
  rewrite (get_tweets_run env user_id limit w row username) by done.
  simpl. rewrite Hlookup. simpl. rewrite Hfetch.
  by destruct Hempty as [-> | ->].
Qed.

Lemma get_tweets_empty_timeline_witness :
  let w := Sample.world None in
  let out := get_tweets Sample.calm "u1" 25 w in
  out.1 = Ok no_tweets ∧
  calls out.2
  = looked_up_calls "u1" (VStr "alice_tw") w
      ++ [TwGetUsersTweets (VInt 42) 25].
Proof.
  apply (get_tweets_empty_timeline Sample.calm "u1" 25 (Sample.world None)
           (Sample.alice None) (VStr "alice_tw") (User.mk (VInt 42))
           (Some (mkResponse (Some [])))).
  - reflexivity.
  - vm_compute. reflexivity.
  - vm_compute. reflexivity.
  - reflexivity.
  - reflexivity.
  - reflexivity.
  - right. reflexivity.
Defined.

(** X20.  When the account is found and every fetched post carries both
    counts, [get_tweets] returns one item per post, in the order fetched,
    without an [error] key.  Each item repeats the post's id, text and
    creation time, takes [likes] and [retweets] from the post's
    [like_count] and [retweet_count], and its [url] is the status prefix
    followed by the post's id. *)
Theorem get_tweets_maps_posts
    (env : Env) (user_id : string) (limit : Z) (w : World) (row : Dict)
    (username : Value) (account : User.t) (posts : list Tweet.t) :
  db_fault env (calls w ++ [username_select user_id]) = None →
  filter (has_id user_id) (profiles w) = [row] →
  row !! "twitter_username" = Some username →
  truthy username = true →
  tw_get_user env (looked_up_calls user_id username w)
  = Ok (Some (mkResponse (Some account))) →
  tw_get_users_tweets env
    (looked_up_calls user_id username w
       ++ [TwGetUsersTweets (User.id account) limit])
  = Ok (Some (mkResponse (Some posts))) →
  posts ≠ [] →
  (∀ post, post ∈ posts →
           ∃ m likes retweets,
             Tweet.public_metrics post = Some m ∧
             m !! "like_count" = Some likes ∧
             m !! "retweet_count" = Some retweets) →
  ∃ items,
    (get_tweets env user_id limit w).1
    = Ok {| TweetList.tweets := items; TweetList.error := None |} ∧
    length items = length posts ∧
    ∀ (i : nat) (post : Tweet.t),
      posts !! i = Some post →
      ∃ item,
        items !! i = Some item ∧
        TweetItem.id item = Tweet.id post ∧
        TweetItem.text item = Tweet.text post ∧
        TweetItem.created_at item = Tweet.created_at post ∧
        subscript_opt (Tweet.public_metrics post) "like_count"
        = Ok (TweetItem.likes item) ∧
        subscript_opt (Tweet.public_metrics post) "retweet_count"
        = Ok (TweetItem.retweets item) ∧
        TweetItem.url item
        = "https://twitter.com/i/web/status/" +:+ py_str (Tweet.id post).
Proof.
  intros Hf Hrow Huser Htruthy Hlookup Hfetch Hne Hall.
  destruct (traverse_all_Ok tweet_item posts) as [items Hitems].
  { intros post Hin.
    destruct (Hall post Hin) as (m & likes & retweets & Hm & Hl & Hr).
    unfold tweet_item, subscript_opt, subscript.
    rewrite Hm, Hl, Hr. simpl. eauto. }
  exists items.
  rewrite (get_tweets_run env user_id limit w row username) by done.
  simpl. rewrite Hlookup. simpl. rewrite Hfetch. simpl.
  destruct posts as [|post0 posts']; [done|].
  rewrite Hitems. simpl. split; [done|].
  apply traverse_Ok_lookup in Hitems as [Hlen Hlook].
  split; [done|].
  intros i post Hpost.
  destruct (Hlook i post Hpost) as (item & Hitem & Hmap).
  exists item. split; [done|].
  unfold tweet_item in Hmap.
  destruct (subscript_opt (Tweet.public_metrics post) "like_count")
    as [likes|e]; simpl in Hmap; [|discriminate].
  destruct (subscript_opt (Tweet.public_metrics post) "retweet_count")
    as [retweets|e]; simpl in Hmap; [|discriminate].
  by injection Hmap as <-.
Qed.

Lemma get_tweets_maps_posts_witness :
  ∃ items,
    (get_tweets Sample.one_post "u1" 10 (Sample.world None)).1
    = Ok {| TweetList.tweets := items; TweetList.error := None |} ∧
    length items = 1%nat.
Proof.
  destruct (get_tweets_maps_posts Sample.one_post "u1" 10
              (Sample.world None) (Sample.alice None) (VStr "alice_tw")
              (User.mk (VInt 42)) [Scenario.full_post])
    as (items & Hr & Hlen & _).
  - reflexivity.
  - vm_compute. reflexivity.
  - vm_compute. reflexivity.
  - reflexivity.
  - reflexivity.
  - reflexivity.
  - discriminate.
  - intros post Hin. apply list_elem_of_singleton in Hin as ->.
    eexists _, (VInt 2), (VInt 0). split_and!.
    + reflexivity.
    + vm_compute. reflexivity.
    + vm_compute. reflexivity.
  - exists items. by split.
Defined.

(** X21.  One post without its counts spoils the whole answer.  When any
    fetched post has no [public_metrics], or lacks one of the two counts,
    [get_tweets] returns an empty [tweets] list with an [error] message,
    status 200: the posts that could be mapped are not returned. *)
Theorem get_tweets_one_bad_post_drops_all
    (env : Env) (user_id : string) (limit : Z) (w : World) (row : Dict)
    (username : Value) (account : User.t) (posts : list Tweet.t)
    (bad : Tweet.t) :
  db_fault env (calls w ++ [username_select user_id]) = None →
  filter (has_id user_id) (profiles w) = [row] →
  row !! "twitter_username" = Some username →
  truthy username = true →
  tw_get_user env (looked_up_calls user_id username w)
  = Ok (Some (mkResponse (Some account))) →
  tw_get_users_tweets env
    (looked_up_calls user_id username w
       ++ [TwGetUsersTweets (User.id account) limit])
  = Ok (Some (mkResponse (Some posts))) →
  bad ∈ posts →
  lacks_metric bad →
  ∃ message,
    (get_tweets env user_id limit w).1
    = Ok {| TweetList.tweets := []; TweetList.error := Some message |} ∧
    status_of (get_tweets env user_id limit w).1 = 200.
Proof.
  intros Hf Hrow Huser Htruthy Hlookup Hfetch Hin Hbad.
  destruct (traverse_one_Raise tweet_item posts bad Hin
              (tweet_item_lacks_metric bad Hbad)) as [e He].
  exists (exn_str e).
  rewrite (get_tweets_run env user_id limit w row username) by done.
  simpl. rewrite Hlookup. simpl. rewrite Hfetch. simpl.
  destruct posts as [|post0 posts']; [by apply elem_of_nil in Hin|].
  by rewrite He.
Qed.

Lemma get_tweets_one_bad_post_drops_all_witness :
  ∃ message,
    (get_tweets Scenario.mixed_timeline "u1" 10 (Sample.world None)).1
    = Ok {| TweetList.tweets := []; TweetList.error := Some message |} ∧
    status_of
      (get_tweets Scenario.mixed_timeline "u1" 10 (Sample.world None)).1
    = 200.
Proof.
  apply (get_tweets_one_bad_post_drops_all Scenario.mixed_timeline "u1" 10
           (Sample.world None) (Sample.alice None) (VStr "alice_tw")
           (User.mk (VInt 42)) [Scenario.full_post; Scenario.bare_post]
           Scenario.bare_post).
  - reflexivity.
  - vm_compute. reflexivity.
  - vm_compute. reflexivity.
  - reflexivity.
  - reflexivity.
  - reflexivity.
  - apply list_elem_of_In. simpl. right. left. reflexivity.
  - intros m Hm. discriminate Hm.
Defined.
